(** * vault-plugin-database-mgmysql: the credential-request protocol

    A shallow embedding of [mgtv_mysql.go] and [connection_producer.go].
    Go strings are byte strings ([string], one [ascii] per byte); Go [int]
    values are [Z]; a [map[string]interface{}] is an optional [gmap] (the
    [None] case is Go's nil map); an [interface{}] value is a [value] tagged
    with its dynamic type.  Calls into packages outside the repository
    (os, encoding/json, net/http, credsutil, mapstructure, fmt's rendering
    of non-string operands) are fields of a [World] record; everything the
    repository itself decides is written out. *)

From Stdlib Require Import ZArith String Ascii List Lia Bool.
From Stdlib Require Import SpecFloat DecimalString.
From stdpp Require Import base option list gmap strings.

Set Warnings "-register-all".
Local Open Scope string_scope.
Local Open Scope Z_scope.
Local Open Scope list_scope.

(** ** Constants of [mgtv_mysql.go] *)

Definition mysqlTypeName : string := "mgtv_mysql".
Definition maxKeyLength : Z := 13.
Definition mysqlToken : string := "mysql_token".
Definition addUser : string := "AddUser".
Definition delUser : string := "VaultDelUser".
Definition vaultMysqlDb : string := "vault_mysql_db".

(** ** Go values *)

(** The message of a Go [error]. *)
Definition error : Type := string.

(** A value held in an [interface{}], with its dynamic type.  [encoding/json]
    produces [VNil], [VBool], [VFloat64], [VString], [VSlice] and [VMap];
    [VInt] is the dynamic type of the untyped constant [0] once it is
    converted to an interface. *)
Inductive value : Type :=
| VNil
| VBool (b : bool)
| VInt (n : Z)
| VFloat64 (f : spec_float)
| VString (s : string)
| VSlice (l : list value)
| VMap (m : gmap string value).

(** [map[string]interface{}]: [None] is the nil map. *)
Definition gomap : Type := option (gmap string value).

(** [m[k]] as an expression: the zero value of [interface{}] when the key is
    not there, also on a nil map. *)
Definition index (m : gomap) (k : string) : value :=
  match m with
  | Some g => default VNil (g !! k)
  | None => VNil
  end.

(** ** The connection producer ([connection_producer.go]) *)

(** The fields of [http.Client] and its transport that [initHttpConnPool]
    sets; durations are [time.Duration], an int64 count of nanoseconds. *)
Record httpClientT : Type := {
  client_Timeout : Z;
  dial_Timeout : Z;
  dial_KeepAlive : Z;
  transport_MaxIdleConns : Z;
  transport_IdleConnTimeout : Z
}.

(** [mgtvMysqlConnectionProducer], without the [db] handle no code touches;
    the embedded [sync.Mutex] shows as the [EvLock]/[EvUnlock] events. *)
Record producer : Type := {
  ConnectionURL : string;
  Type_ : string;
  RawConfig : gomap;
  Timeout : Z;
  KeepAlive : Z;
  IdleConnTimeout : Z;
  MaxIdleConns : Z;
  httpClient : httpClientT;
  Initialized : bool
}.

(** ** Outcomes and the call monad *)

(** What a call leaves behind: the lock operations on the connection
    producer's mutex, the log lines and the calls of the HTTP client's
    [Post], in order.  One call of [Post] is one [EvPost], whatever requests
    the client sends inside it. *)
Inductive event : Type :=
| EvLock
| EvUnlock
| EvLog (msg : string) (arg : string)
| EvPost (url contentType body : string).

(** A Go call that returns [(resp, error)]: [Ret] is a nil error, [Err] a
    non-nil one (the response is then the zero value), [Panic] a run-time
    panic. *)
Inductive outcome (A : Type) : Type :=
| Ret (a : A)
| Err (e : error)
| Panic (msg : string).
Arguments Ret {A} a.
Arguments Err {A} e.
Arguments Panic {A} msg.

(** The receiver [c] every method shares, and the history so far. *)
Record state : Type := { conn : producer; trace : list event }.

Definition M (A : Type) : Type := state -> outcome A * state.

Definition ret {A} (a : A) : M A := fun st => (Ret a, st).
Definition fail {A} (e : error) : M A := fun st => (Err e, st).
Definition panic {A} (msg : string) : M A := fun st => (Panic msg, st).
Definition emit (e : event) : M unit :=
  fun st => (Ret tt, {| conn := conn st; trace := trace st ++ [e] |}).
Definition self : M producer := fun st => (Ret (conn st), st).
Definition store (c : producer) : M unit :=
  fun st => (Ret tt, {| conn := c; trace := trace st |}).

Definition bind {A B} (m : M A) (k : A -> M B) : M B :=
  fun st =>
    match m st with
    | (Ret a, st') => k a st'
    | (Err e, st') => (Err e, st')
    | (Panic msg, st') => (Panic msg, st')
    end.

Declare Scope go_scope.
Delimit Scope go_scope with go.
Notation "x <- m ;; k" := (bind m (fun x => k))
  (at level 100, m at next level, right associativity) : go_scope.
Notation "m ;;; k" := (bind m (fun _ => k))
  (at level 100, right associativity) : go_scope.
Local Open Scope go_scope.

(** [c.Lock(); defer c.Unlock(); body]: the deferred unlock runs however the
    body ends, a panic included. *)
Definition withLock {A} (body : M A) : M A :=
  fun st =>
    let '(r, st') := body {| conn := conn st; trace := trace st ++ [EvLock] |} in
    (r, {| conn := conn st'; trace := trace st' ++ [EvUnlock] |}).

(** A call on the receiver [c], started on an empty history. *)
Definition run {A} (m : M A) (c : producer) : outcome A * state :=
  m {| conn := c; trace := [] |}.

(** [v, err := f(); if err != nil { return zero, wrap(err) }] *)
Definition orReturn {A} (r : error + A) (wrap : error -> error) : M A :=
  match r with
  | inl e => fail (wrap e)
  | inr a => ret a
  end.

(** [a && b], the right operand evaluated only when the left one holds. *)
Definition andM (a b : M bool) : M bool :=
  x <- a ;; if x then b else ret false.

(** [a != b] on two interface values: different dynamic types are unequal;
    equal dynamic types compare by value, and panic when the type is not
    comparable (slices and maps). *)
Definition ifaceNe (a b : value) : M bool :=
  match a, b with
  | VNil, VNil => ret false
  | VBool x, VBool y => ret (negb (Bool.eqb x y))
  | VInt x, VInt y => ret (negb (x =? y))
  | VFloat64 x, VFloat64 y => ret (negb (SFeqb x y))
  | VString x, VString y => ret (negb (String.eqb x y))
  | VSlice _, VSlice _ => panic "runtime error: comparing uncomparable type []interface {}"
  | VMap _, VMap _ => panic "runtime error: comparing uncomparable type map[string]interface {}"
  | _, _ => ret true
  end.

(** [m[k] = v]: a nil map panics. *)
Definition assign (m : gomap) (k : string) (v : value) : M gomap :=
  match m with
  | Some g => ret (Some (<[k := v]> g))
  | None => panic "assignment to entry in nil map"
  end.

(** The name of a value's dynamic type, as the runtime prints it. *)
Definition typeName (v : value) : string :=
  match v with
  | VNil => "nil"
  | VBool _ => "bool"
  | VInt _ => "int"
  | VFloat64 _ => "float64"
  | VString _ => "string"
  | VSlice _ => "[]interface {}"
  | VMap _ => "map[string]interface {}"
  end.

(** [v.(float64)], the one-result form: anything but a float64 panics. *)
Definition assertFloat64 (v : value) : M spec_float :=
  match v with
  | VFloat64 f => ret f
  | _ => panic ("interface conversion: interface {} is " +:+ typeName v
                +:+ ", not float64")
  end.

(** [l[0]] *)
Definition index0 (l : list string) : M string :=
  match l with
  | x :: _ => ret x
  | [] => panic "runtime error: index out of range [0] with length 0"
  end.

(** ** Strings *)

(** [len(s)] *)
Definition len (s : string) : Z := Z.of_nat (String.length s).

Definition nameTrunc (str : string) (l : Z) : string :=
  if 0 <? l then
    if len str <? l then str
    else substring 0 (Z.to_nat l) str
  else if l =? 0 then str
  else "".

Definition byte_of (c : ascii) : Z := Z.of_nat (nat_of_ascii c).

(** The ASCII path of [strings.ToUpper]: every byte is below [utf8.RuneSelf]
    (0x80); a byte in ['a'..'z'] loses ['a' - 'A']. *)
Definition isASCII (s : string) : bool :=
  forallb (fun c => byte_of c <? 128) (list_ascii_of_string s).

Definition upper_byte (c : ascii) : ascii :=
  if (97 <=? byte_of c) && (byte_of c <=? 122)
  then ascii_of_nat (nat_of_ascii c - 32)
  else c.

Fixpoint upper_ascii (s : string) : string :=
  match s with
  | EmptyString => EmptyString
  | String c r => String (upper_byte c) (upper_ascii r)
  end.

(** [itoa]: a Go [int] in decimal. *)
Definition itoa (n : Z) : string := NilZero.string_of_int (Z.to_int n).

(** [contains sub s]: [strings.Contains(s, sub)]. *)
Fixpoint contains (sub s : string) : bool :=
  String.prefix sub s ||
  match s with
  | EmptyString => false
  | String _ r => contains sub r
  end.

(** [hasSuffix suf s]: [strings.HasSuffix(s, suf)]. *)
Definition hasSuffix (suf s : string) : bool :=
  (String.length suf <=? String.length s)%nat &&
  String.eqb (substring (String.length s - String.length suf) (String.length suf) s) suf.

(** The double quote, for writing JSON texts. *)
Definition dq : string := String (ascii_of_nat 34) EmptyString.

(** ** The world outside the repository *)

(** An [http.Response]: its status code, and what [ioutil.ReadAll] gives on
    its body. *)
Record Response : Type := {
  StatusCode : Z;
  ReadAll : error + string
}.

Record World : Type := {
  (** [os.Getenv] *)
  Getenv : string -> string;
  (** [credsutil.GenerateUsername], called with an empty display name cut
      at [maxKeyLength]: the name and the error of this call *)
  GenerateUsername : string * option error;
  (** [strings.Map(unicode.ToUpper, s)], the path [strings.ToUpper] takes on
      a string that is not all ASCII *)
  MapToUpper : string -> string;
  (** [json.Unmarshal] of a text into a map just made: an error, the nil map
      (the text [null]) or the decoded object *)
  Unmarshal : string -> error + gomap;
  (** [json.Marshal] of a [map[string]interface{}] *)
  Marshal : gomap -> error + string;
  (** [Post(url, contentType, body)] on the given [http.Client] *)
  Post : httpClientT -> string -> string -> string -> error + Response;
  (** how [fmt] renders, under the verb [%s], an operand that is a float64,
      a slice or a map *)
  FormatOther : value -> string;
  (** [mapstructure.NewDecoder] with the producer as [Result] *)
  NewDecoder : option error;
  (** [decoder.Decode(initConfig)]: the fields it wrote, and its error *)
  Decode : gomap -> producer -> producer * option error;
  (** what [decoder.Decode(initConfig)] leaves in the map [initConfig]
      itself: a Go map is shared, the producer's [RawConfig] is this very
      map when the decoder runs, and what the decoder writes for that field
      it writes into the map in place *)
  ConfigAfterDecode : gomap -> producer -> gomap
}.

(** [strings.ToUpper] *)
Definition ToUpper (w : World) (s : string) : string :=
  if isASCII s then upper_ascii s else MapToUpper w s.

(** [fmt]'s rendering of an [interface{}] operand under [%s]. *)
Definition fmtS (w : World) (v : value) : string :=
  match v with
  | VString s => s
  | VNil => "%!s(<nil>)"
  | VBool b => "%!s(bool=" +:+ (if b then "true" else "false") +:+ ")"
  | VInt n => "%!s(int=" +:+ itoa n +:+ ")"
  | _ => FormatOther w v
  end.

(** [c.httpClient.Post(c.ConnectionURL, contentType, body)] *)
Definition httpPost (w : World) (contentType body : string) : M (error + Response) :=
  c <- self ;;
  emit (EvPost (ConnectionURL c) contentType body) ;;;
  ret (Post w (httpClient c) (ConnectionURL c) contentType body).

(** ** Requests and responses of the plugin interface (dbplugin v5) *)

Record NewUserRequest : Type := {
  NewUser_Commands : list string;  (* req.Statements.Commands *)
  NewUser_Password : string        (* req.Password *)
}.
Record NewUserResponse : Type := { Username : string }.

Record DeleteUserRequest : Type := {
  DeleteUser_Username : string;       (* req.Username *)
  DeleteUser_Commands : list string   (* req.Statements.Commands *)
}.
Record DeleteUserResponse : Type := { }.

Record UpdateUserRequest : Type := {
  UpdateUser_Username : string;
  UpdateUser_Password : option string  (* req.Password, and its NewPassword *)
}.
Record UpdateUserResponse : Type := { }.

Record InitializeRequest : Type := {
  Config : gomap;
  VerifyConnection : bool
}.
Record InitializeResponse : Type := { resp_Config : gomap }.

(** ** [mgtv_mysql.go] *)

Definition NewUser (w : World) (req : NewUserRequest) : M NewUserResponse :=
  withLock (
    let '(username, err) := GenerateUsername w in
    let username := nameTrunc username maxKeyLength in
    match err with
    | Some e => fail ("failed to generate username: " +:+ e)
    | None =>
      let username := ToUpper w username in
      let statements := NewUser_Commands req in
      let token := Getenv w mysqlToken in
      if len token =? 0 then fail "not exist mysql token"
      else if Z.of_nat (length statements) >? 1
      then fail "a maximum of one create_statement is supported"
      else if Z.of_nat (length statements) =? 0
      then fail "create_statement is empty"
      else
        statement <- index0 statements ;;
        body <- orReturn (Unmarshal w statement) id ;;
        privileged <- andM (andM (ifaceNe (index body "priv") VNil)
                                 (ifaceNe (index body "priv") (VInt 0)))
                           (ifaceNe (index body "priv") (VString "0")) ;;
        let username :=
          if privileged then username +:+ "_" +:+ "rw"
          else username +:+ "_" +:+ "r" in
        body <- assign body "username" (VString username) ;;
        body <- assign body "password" (VString (NewUser_Password req)) ;;
        body <- assign body "action" (VString addUser) ;;
        body <- assign body "token" (VString token) ;;
        marshal <- orReturn (Marshal w body) id ;;
        emit (EvLog "request db create user body:" marshal) ;;;
        r <- httpPost w "application/json" marshal ;;
        response <- orReturn r (fun e =>
          "invoke db create user: " +:+ username +:+ " failed: " +:+ e) ;;
        if negb (StatusCode response =? 200)
        then fail ("invoke db create user:" +:+ username
                   +:+ " failed: http statusCode: %!s(int="
                   +:+ itoa (StatusCode response) +:+ ")")
        else
          resp_body <- orReturn (ReadAll response) (fun e =>
            "invoke db create user:" +:+ username +:+ " failed: " +:+ e) ;;
          result <- orReturn (Unmarshal w resp_body) (fun e =>
            "invoke db create user:" +:+ username +:+ " failed: " +:+ e) ;;
          let status := index result "status" in
          f <- assertFloat64 status ;;
          if negb (SFeqb f (S754_zero false))
          then fail ("invoke db create user:" +:+ username +:+ " failed: "
                     +:+ fmtS w (index result "error"))
          else ret {| Username := username |}
    end).

Definition changeUserPassword (username password : string) : M unit :=
  ret tt.

Definition UpdateUser (req : UpdateUserRequest) : M UpdateUserResponse :=
  match UpdateUser_Password req with
  | Some newPassword =>
      changeUserPassword (UpdateUser_Username req) newPassword ;;;
      ret Build_UpdateUserResponse
  | None => ret Build_UpdateUserResponse
  end.

Definition DeleteUser (w : World) (req : DeleteUserRequest) : M DeleteUserResponse :=
  withLock (
    let username := DeleteUser_Username req in
    if Z.of_nat (length (DeleteUser_Commands req)) =? 0
    then fail ("revocation %!f(string=" +:+ username
               +:+ ")ailed,Revocation Statements is empty")
    else
      revocation_str <- index0 (DeleteUser_Commands req) ;;
      revocation <- orReturn (Unmarshal w revocation_str) id ;;
      revocation <- assign revocation "action" (VString delUser) ;;
      revocation <- assign revocation "token" (VString (Getenv w mysqlToken)) ;;
      revocation <- assign revocation "username" (VString username) ;;
      body <- orReturn (Marshal w revocation) id ;;
      r <- httpPost w "application/json" body ;;
      response <- orReturn r id ;;
      if negb (StatusCode response =? 200)
      then fail ("delete user failed: http statusCode: %!s(int="
                 +:+ itoa (StatusCode response) +:+ ")")
      else
        resp_body <- orReturn (ReadAll response) (fun e => "delete user failed: " +:+ e) ;;
        result <- orReturn (Unmarshal w resp_body) (fun e => "delete user failed: " +:+ e) ;;
        let status := index result "status" in
        f <- assertFloat64 status ;;
        if negb (SFeqb f (S754_zero false))
        then fail ("delete user failed: " +:+ fmtS w (index result "error"))
        else ret Build_DeleteUserResponse).

(** [Type()] *)
Definition Type__ : string * option error := (mysqlTypeName, None).

(** ** [connection_producer.go] *)

(** int64 arithmetic wraps around. *)
Definition wrap64 (z : Z) : Z := (z + 2 ^ 63) mod 2 ^ 64 - 2 ^ 63.

(** [time.Second], in nanoseconds. *)
Definition Second : Z := 1000000000.

Definition set_RawConfig (v : gomap) (c : producer) : producer :=
  {| ConnectionURL := ConnectionURL c; Type_ := Type_ c; RawConfig := v;
     Timeout := Timeout c; KeepAlive := KeepAlive c;
     IdleConnTimeout := IdleConnTimeout c; MaxIdleConns := MaxIdleConns c;
     httpClient := httpClient c; Initialized := Initialized c |}.

Definition set_ConnectionURL (v : string) (c : producer) : producer :=
  {| ConnectionURL := v; Type_ := Type_ c; RawConfig := RawConfig c;
     Timeout := Timeout c; KeepAlive := KeepAlive c;
     IdleConnTimeout := IdleConnTimeout c; MaxIdleConns := MaxIdleConns c;
     httpClient := httpClient c; Initialized := Initialized c |}.

Definition set_Initialized (v : bool) (c : producer) : producer :=
  {| ConnectionURL := ConnectionURL c; Type_ := Type_ c; RawConfig := RawConfig c;
     Timeout := Timeout c; KeepAlive := KeepAlive c;
     IdleConnTimeout := IdleConnTimeout c; MaxIdleConns := MaxIdleConns c;
     httpClient := httpClient c; Initialized := v |}.

Definition set_httpClient (v : httpClientT) (c : producer) : producer :=
  {| ConnectionURL := ConnectionURL c; Type_ := Type_ c; RawConfig := RawConfig c;
     Timeout := Timeout c; KeepAlive := KeepAlive c;
     IdleConnTimeout := IdleConnTimeout c; MaxIdleConns := MaxIdleConns c;
     httpClient := v; Initialized := Initialized c |}.

(** [c.f = v] on the shared receiver. *)
Definition update (f : producer -> producer) : M unit :=
  c <- self ;; store (f c).

(** A call whose two results are both kept: [v, err := f()]. *)
Definition attempt {A} (m : M A) : M (error + A) :=
  fun st =>
    match m st with
    | (Ret a, st') => (Ret (inr a), st')
    | (Err e, st') => (Ret (inl e), st')
    | (Panic msg, st') => (Panic msg, st')
    end.

Definition secretValues : gmap string string := ∅.

(** The map [initConfig] is shared with the caller and, from the first
    assignment on, with [c.RawConfig]: after the decoder has run, [initConfig]
    stands for what the decoder left in it. *)
Definition Init (w : World) (initConfig : gomap) (verifyConnection : bool) : M gomap :=
  withLock (
    update (set_RawConfig initConfig) ;;;
    match NewDecoder w with
    | Some e => fail e
    | None =>
      c <- self ;;
      let '(c', err) := Decode w initConfig c in
      let initConfig := ConfigAfterDecode w initConfig c in
      store c' ;;;
      match err with
      | Some e => fail e
      | None =>
        update (set_ConnectionURL (Getenv w vaultMysqlDb)) ;;;
        update (set_Initialized true) ;;;
        ret initConfig
      end
    end).

Definition initHttpConnPool : M unit :=
  c <- self ;;
  store (set_httpClient
    {| client_Timeout := wrap64 (Timeout c * Second);
       dial_Timeout := wrap64 (Timeout c * Second);
       dial_KeepAlive := wrap64 (KeepAlive c * Second);
       transport_MaxIdleConns := MaxIdleConns c;
       transport_IdleConnTimeout := wrap64 (IdleConnTimeout c * Second) |} c).

(** [Initialize], the method of [mgtvMysqlConnectionProducer].  In Go it
    returns the error alone and drops the map [Init] returned; that map is
    the caller's [config], so the model hands back what the call left in
    it. *)
Definition producer_Initialize (w : World) (config : gomap) (verifyConnection : bool)
  : M gomap :=
  r <- attempt (Init w config verifyConnection) ;;
  initHttpConnPool ;;;
  match r with
  | inl e => fail e
  | inr config => ret config
  end.

(** [Initialize], the method of [MgtvMysql]: the response holds [req.Config],
    the map the producer was given, as the call left it. *)
Definition Initialize (w : World) (req : InitializeRequest) : M InitializeResponse :=
  r <- attempt (producer_Initialize w (Config req) (VerifyConnection req)) ;;
  match r with
  | inl e => fail e
  | inr config => ret {| resp_Config := config |}
  end.

(** [new()]: a producer with only its type name set. *)
Definition new : producer :=
  {| ConnectionURL := ""; Type_ := mysqlTypeName; RawConfig := None;
     Timeout := 0; KeepAlive := 0; IdleConnTimeout := 0; MaxIdleConns := 0;
     httpClient := {| client_Timeout := 0; dial_Timeout := 0; dial_KeepAlive := 0;
                      transport_MaxIdleConns := 0; transport_IdleConnTimeout := 0 |};
     Initialized := false |}.

Definition Close : M unit := ret tt.

(** ** A small world to evaluate the calls in *)

Module Sample.

Definition zero : spec_float := S754_zero false.
Definition one : spec_float := S754_finite false 4503599627370496 (-52).

Definition stmt_no_priv : string := "{}".
Definition stmt_priv_0 : string := "{" +:+ dq +:+ "priv" +:+ dq +:+ ":0}".
Definition stmt_priv_s0 : string :=
  "{" +:+ dq +:+ "priv" +:+ dq +:+ ":" +:+ dq +:+ "0" +:+ dq +:+ "}".
Definition stmt_priv_1 : string := "{" +:+ dq +:+ "priv" +:+ dq +:+ ":1}".
Definition body_ok : string := "{" +:+ dq +:+ "status" +:+ dq +:+ ":0}".
Definition body_boom : string :=
  "{" +:+ dq +:+ "status" +:+ dq +:+ ":1," +:+ dq +:+ "error" +:+ dq +:+ ":"
  +:+ dq +:+ "boom" +:+ dq +:+ "}".
Definition body_no_status : string := "{}".

(** What [json.Unmarshal] gives on the texts above (an error elsewhere). *)
Definition unmarshal (s : string) : error + gomap :=
  if String.eqb s stmt_no_priv then inr (Some ∅)
  else if String.eqb s stmt_priv_0 then inr (Some {[ "priv" := VFloat64 zero ]})
  else if String.eqb s stmt_priv_s0 then inr (Some {[ "priv" := VString "0" ]})
  else if String.eqb s stmt_priv_1 then inr (Some {[ "priv" := VFloat64 one ]})
  else if String.eqb s body_ok then inr (Some {[ "status" := VFloat64 zero ]})
  else if String.eqb s body_boom
  then inr (Some (<[ "error" := VString "boom" ]> {[ "status" := VFloat64 one ]}))
  else inl "invalid character".

(** A stand-in for [json.Marshal]: the action, token and username of the
    request, in that order. *)
Definition field (m : gomap) (k : string) : string :=
  match index m k with VString s => s | _ => "?" end.
Definition marshal (m : gomap) : error + string :=
  inr (field m "action" +:+ " token=" +:+ field m "token"
       +:+ " username=" +:+ field m "username").

Definition world (token : string) (resp : error + Response) : World :=
  {| Getenv := fun k => if String.eqb k mysqlToken then token
                        else if String.eqb k vaultMysqlDb then "http://db.example/api"
                        else "";
     GenerateUsername := ("v_aB3dE5gH7jK9mN1pQ3sT_1700000000", None);
     MapToUpper := fun s => s;
     Unmarshal := unmarshal;
     Marshal := marshal;
     Post := fun _ _ _ _ => resp;
     FormatOther := fun _ => "?";
     NewDecoder := None;
     Decode := fun _ c => (c, None);
     ConfigAfterDecode := fun cfg _ => cfg |}.

Definition c0 : producer := set_ConnectionURL "http://db.example/api" new.

Definition http (code : Z) (body : string) : error + Response :=
  inr {| StatusCode := code; ReadAll := inr body |}.

End Sample.

(** ** What a history says *)

Definition is_post (e : event) : bool :=
  match e with EvPost _ _ _ => true | _ => false end.

(** The calls of [Post] in a history. *)
Definition network_calls (t : list event) : list event := List.filter is_post t.

(** The call behind the history [t] called [Post], and [response] is what
    the client gave back for it. *)
Definition answered (w : World) (c : producer) (t : list event) (response : Response)
  : Prop :=
  exists url contentType body,
    In (EvPost url contentType body) t /\
    Post w (httpClient c) url contentType body = inr response.

(** ** Views of the two calls, for stating lemmas *)

(** The decision [NewUser] takes on [body["priv"]]. *)
Definition privileged (priv : value) : bool :=
  match priv with
  | VNil => false
  | VInt n => negb (n =? 0)
  | VString s => negb (String.eqb s "0")
  | _ => true
  end.

(** The name [NewUser] settles on, given the decoded create-statement. *)
Definition NewUser_username (w : World) (body : gomap) : string :=
  ToUpper w (nameTrunc (fst (GenerateUsername w)) maxKeyLength)
  +:+ "_" +:+ (if privileged (index body "priv") then "rw" else "r").

(** The object [NewUser] serializes. *)
Definition NewUser_body (w : World) (req : NewUserRequest) (g : gmap string value)
  : gmap string value :=
  <["token" := VString (Getenv w mysqlToken)]>
    (<["action" := VString addUser]>
      (<["password" := VString (NewUser_Password req)]>
        (<["username" := VString (NewUser_username w (Some g))]> g))).

(** The object [DeleteUser] serializes. *)
Definition DeleteUser_body (w : World) (req : DeleteUserRequest) (g : gmap string value)
  : gmap string value :=
  <["username" := VString (DeleteUser_Username req)]>
    (<["token" := VString (Getenv w mysqlToken)]>
      (<["action" := VString delUser]> g)).

(** How both calls read the decoded response body: a panic unless [status]
    is a float64, success when it is zero, else the [error] field under the
    call's own heading. *)
Definition read_status {A} (w : World) (heading : string -> error) (ok : A)
    (result : gomap) : outcome A :=
  match index result "status" with
  | VFloat64 f =>
      if SFeqb f (S754_zero false) then Ret ok
      else Err (heading (fmtS w (index result "error")))
  | v => Panic ("interface conversion: interface {} is " +:+ typeName v
                +:+ ", not float64")
  end.

(** What [NewUser] makes of the answer to its POST. *)
Definition NewUser_answer (w : World) (username : string) (r : error + Response)
  : outcome NewUserResponse :=
  match r with
  | inl e => Err ("invoke db create user: " +:+ username +:+ " failed: " +:+ e)
  | inr response =>
      if StatusCode response =? 200 then
        match ReadAll response with
        | inl e => Err ("invoke db create user:" +:+ username +:+ " failed: " +:+ e)
        | inr resp_body =>
            match Unmarshal w resp_body with
            | inl e => Err ("invoke db create user:" +:+ username +:+ " failed: " +:+ e)
            | inr result =>
                read_status w
                  (fun e => "invoke db create user:" +:+ username +:+ " failed: " +:+ e)
                  {| Username := username |} result
            end
        end
      else Err ("invoke db create user:" +:+ username
                +:+ " failed: http statusCode: %!s(int="
                +:+ itoa (StatusCode response) +:+ ")")
  end.

(** What [DeleteUser] makes of the answer to its POST. *)
Definition DeleteUser_answer (w : World) (r : error + Response)
  : outcome DeleteUserResponse :=
  match r with
  | inl e => Err e
  | inr response =>
      if StatusCode response =? 200 then
        match ReadAll response with
        | inl e => Err ("delete user failed: " +:+ e)
        | inr resp_body =>
            match Unmarshal w resp_body with
            | inl e => Err ("delete user failed: " +:+ e)
            | inr result =>
                read_status w (fun e => "delete user failed: " +:+ e)
                  Build_DeleteUserResponse result
            end
        end
      else Err ("delete user failed: http statusCode: %!s(int="
                +:+ itoa (StatusCode response) +:+ ")")
  end.

(** ** Calls running side by side *)

(** A call on the shared producer, with the world it runs in. *)
Inductive call : Type :=
| CallNewUser (w : World) (req : NewUserRequest)
| CallDeleteUser (w : World) (req : DeleteUserRequest).

(** The events of one call on the producer [c], in program order. *)
Definition events_of (c : producer) (k : call) : list event :=
  match k with
  | CallNewUser w req => trace (snd (run (NewUser w req) c))
  | CallDeleteUser w req => trace (snd (run (DeleteUser w req) c))
  end.

(** A goroutine inside a call: the events it has performed, and the ones it
    has yet to perform. *)
Record goroutine : Type := { performed : list event; pending : list event }.

(** The producer's [sync.Mutex] and the goroutines calling into it. *)
Record system : Type := { locked : bool; goroutines : list goroutine }.

Definition start (c : producer) (calls : list call) : system :=
  {| locked := false;
     goroutines := map (fun k => {| performed := []; pending := events_of c k |}) calls |}.

(** Goroutine [i] performs its next event.  [Lock] goes through only while
    the mutex is free, and takes it; [Unlock] releases it; a goroutine that
    has nothing left, or whose [Lock] has to wait, does not move. *)
Definition step (s : system) (i : nat) : option system :=
  match goroutines s !! i with
  | Some g =>
      match pending g with
      | e :: rest =>
          let moved (m : bool) :=
            {| locked := m;
               goroutines :=
                 <[i := {| performed := performed g ++ [e]; pending := rest |}]>
                   (goroutines s) |} in
          match e with
          | EvLock => if locked s then None else Some (moved true)
          | EvUnlock => if locked s then Some (moved false) else None
          | _ => Some (moved (locked s))
          end
      | [] => None
      end
  | None => None
  end.

(** The system after the goroutines moved in the order of [schedule]. *)
Fixpoint exec (s : system) (schedule : list nat) : option system :=
  match schedule with
  | [] => Some s
  | i :: later =>
      match step s i with
      | Some s' => exec s' later
      | None => None
      end
  end.

(** A call is in progress once its goroutine has performed an event and
    until it has performed its last. *)
Definition in_progress (g : goroutine) : bool :=
  match performed g, pending g with
  | _ :: _, _ :: _ => true
  | _, _ => false
  end.

(** The number of calls in progress. *)
Definition busy (l : list goroutine) : nat := length (List.filter in_progress l).

Definition is_lock_op (e : event) : bool :=
  match e with EvLock | EvUnlock => true | _ => false end.

(** What is left of a critical section: events that leave the mutex alone,
    then the unlock. *)
Definition critical (t : list event) : Prop :=
  exists mid, t = mid ++ [EvUnlock] /\ Forall (fun e => is_lock_op e = false) mid.

(** Where a goroutine can be in its call: before the lock, inside the
    critical section, or done. *)
Definition shaped (g : goroutine) : Prop :=
  match performed g with
  | [] => exists t, pending g = EvLock :: t /\ critical t
  | _ :: _ => pending g = [] \/ critical (pending g)
  end.

Definition b2n (b : bool) : nat := if b then 1%nat else 0%nat.

Definition invariant (s : system) : Prop :=
  Forall shaped (goroutines s) /\ busy (goroutines s) = b2n (locked s).

(** ** The calls as decision trees *)

(** [Connection], the other no-op of the producer: a nil connection and a
    nil error. *)
Definition Connection : M value := ret VNil.

(** The state of a call that ended before any exchange. *)
Definition early (c : producer) : state := {| conn := c; trace := [EvLock; EvUnlock] |}.

(** [NewUser], check by check, in the order the code makes them. *)
Definition NewUser_view (w : World) (req : NewUserRequest) (c : producer)
  : outcome NewUserResponse * state :=
  match snd (GenerateUsername w) with
  | Some e => (Err ("failed to generate username: " +:+ e), early c)
  | None =>
      if len (Getenv w mysqlToken) =? 0 then (Err "not exist mysql token", early c)
      else
        match NewUser_Commands req with
        | [] => (Err "create_statement is empty", early c)
        | _ :: _ :: _ => (Err "a maximum of one create_statement is supported", early c)
        | [stmt] =>
            match Unmarshal w stmt with
            | inl e => (Err e, early c)
            | inr None => (Panic "assignment to entry in nil map", early c)
            | inr (Some g) =>
                match Marshal w (Some (NewUser_body w req g)) with
                | inl e => (Err e, early c)
                | inr b =>
                    (NewUser_answer w (NewUser_username w (Some g))
                       (Post w (httpClient c) (ConnectionURL c) "application/json" b),
                     {| conn := c;
                        trace := [EvLock; EvLog "request db create user body:" b;
                                  EvPost (ConnectionURL c) "application/json" b;
                                  EvUnlock] |})
                end
            end
        end
  end.

(** [DeleteUser], check by check. *)
Definition DeleteUser_view (w : World) (req : DeleteUserRequest) (c : producer)
  : outcome DeleteUserResponse * state :=
  match DeleteUser_Commands req with
  | [] => (Err ("revocation %!f(string=" +:+ DeleteUser_Username req
                +:+ ")ailed,Revocation Statements is empty"), early c)
  | stmt :: _ =>
      match Unmarshal w stmt with
      | inl e => (Err e, early c)
      | inr None => (Panic "assignment to entry in nil map", early c)
      | inr (Some g) =>
          match Marshal w (Some (DeleteUser_body w req g)) with
          | inl e => (Err e, early c)
          | inr b =>
              (DeleteUser_answer w
                 (Post w (httpClient c) (ConnectionURL c) "application/json" b),
               {| conn := c;
                  trace := [EvLock; EvPost (ConnectionURL c) "application/json" b;
                            EvUnlock] |})
          end
      end
  end.

(** The client [initHttpConnPool] builds from the producer's fields. *)
Definition pool_of (c : producer) : httpClientT :=
  {| client_Timeout := wrap64 (Timeout c * Second);
     dial_Timeout := wrap64 (Timeout c * Second);
     dial_KeepAlive := wrap64 (KeepAlive c * Second);
     transport_MaxIdleConns := MaxIdleConns c;
     transport_IdleConnTimeout := wrap64 (IdleConnTimeout c * Second) |}.

Definition is_log (e : event) : bool :=
  match e with EvLog _ _ => true | _ => false end.

(** The text an exchange or a log line carries. *)
Definition text_of (e : event) : string :=
  match e with
  | EvLog _ arg => arg
  | EvPost _ _ body => body
  | _ => ""
  end.

(** A byte in ['a'..'z']. *)
Definition is_lower (ch : ascii) : bool := (97 <=? byte_of ch) && (byte_of ch <=? 122).

(** ** Worlds in which something goes wrong *)

Module Faulty.

(** [json.Unmarshal] on the text [null] leaves the nil map. *)
Definition unmarshal (s : string) : error + gomap :=
  if String.eqb s "null" then inr None else Sample.unmarshal s.

(** What a decoder that merges into a map field in place leaves in the
    configuration: the entries under the key [rawconfig], the name of the
    producer's field, are written into the configuration itself. *)
Definition written (cfg : gomap) : gomap :=
  match cfg with
  | Some g =>
      match g !! "rawconfig" with
      | Some (VMap m) => Some (m ∪ g)
      | _ => cfg
      end
  | None => None
  end.

(** A world with the given token, answer to the POST, decoder construction
    and decoder. *)
Definition world (token : string) (resp : error + Response)
    (newDecoder : option error) (decode : gomap -> producer -> producer * option error)
  : World :=
  {| Getenv := fun k => if String.eqb k mysqlToken then token
                        else if String.eqb k vaultMysqlDb then "http://db.example/api"
                        else "";
     GenerateUsername := ("v_aB3dE5gH7jK9mN1pQ3sT_1700000000", None);
     MapToUpper := fun s => s;
     Unmarshal := unmarshal;
     Marshal := Sample.marshal;
     Post := fun _ _ _ _ => resp;
     FormatOther := fun _ => "?";
     NewDecoder := newDecoder;
     Decode := decode;
     ConfigAfterDecode := fun cfg _ => written cfg |}.

(** A decoder that reads [timeout] as 30 and [connection_url] from the
    configuration, and merges into [RawConfig], the configuration itself, what
    stands under [rawconfig]. *)
Definition decode30 (cfg : gomap) (c : producer) : producer * option error :=
  ({| ConnectionURL := match index cfg "connection_url" with
                       | VString u => u
                       | _ => ConnectionURL c
                       end;
      Type_ := Type_ c; RawConfig := written cfg;
      Timeout := 30; KeepAlive := KeepAlive c;
      IdleConnTimeout := IdleConnTimeout c; MaxIdleConns := MaxIdleConns c;
      httpClient := httpClient c; Initialized := Initialized c |}, None).

Definition decode_fails (cfg : gomap) (c : producer) : producer * option error :=
  (c, Some "cannot parse 'timeout' as int").

End Faulty.

(** * Properties *)

(** ** Facts about strings *)

Lemma len_zero (s : string) : (len s =? 0) = true <-> s = "".
Proof.
  unfold len. destruct s; simpl; split; intros H; try done.
Qed.

Lemma length_append (a s : string) :
  String.length (a +:+ s) = (String.length a + String.length s)%nat.
Proof. induction a as [|ch a IH]; simpl; [reflexivity | now rewrite IH]. Qed.

Lemma substring_all (s : string) : substring 0 (String.length s) s = s.
Proof. induction s as [|ch s IH]; simpl; [reflexivity | now rewrite IH]. Qed.

Lemma substring_skip (a s : string) (k m : nat) :
  substring (String.length a + k) m (a +:+ s) = substring k m s.
Proof. induction a as [|ch a IH]; simpl; [reflexivity | apply IH]. Qed.

Lemma hasSuffix_append (a s : string) : hasSuffix s (a +:+ s) = true.
Proof.
  unfold hasSuffix. rewrite length_append.
  replace (String.length a + String.length s - String.length s)%nat
    with (String.length a + 0)%nat by lia.
  rewrite substring_skip, substring_all, String.eqb_refl, andb_true_r.
  apply Nat.leb_le. lia.
Qed.

Lemma prefix_append (s t : string) : String.prefix s (s +:+ t) = true.
Proof.
  induction s as [|ch s IH]; simpl.
  - now destruct t.
  - destruct (ascii_dec ch ch); [apply IH | contradiction].
Qed.

Lemma contains_prefix (s u : string) : String.prefix s u = true -> contains s u = true.
Proof. intros H. destruct u; cbn [contains]; rewrite H; reflexivity. Qed.

Lemma contains_append (a s t : string) : contains s (a +:+ s +:+ t) = true.
Proof.
  induction a as [|ch a IH].
  - change ("" +:+ s +:+ t) with (s +:+ t). apply contains_prefix, prefix_append.
  - change (String ch a +:+ s +:+ t) with (String ch (a +:+ s +:+ t)).
    cbn [contains]. rewrite IH. apply orb_true_r.
Qed.

Lemma contains_skip (a s t : string) :
  contains s t = true -> contains s (a +:+ t) = true.
Proof.
  intros H. induction a as [|ch a IH]; [exact H|].
  change (String ch a +:+ t) with (String ch (a +:+ t)).
  cbn [contains]. rewrite IH. apply orb_true_r.
Qed.

Lemma contains_at_end (a s : string) : contains s (a +:+ s) = true.
Proof.
  assert (E : s = s +:+ "").
  { induction s as [|ch s IH]; [reflexivity|].
    change (String ch s +:+ "") with (String ch (s +:+ "")). congruence. }
  rewrite E at 2. apply contains_append.
Qed.

Lemma upper_ascii_length (s : string) :
  String.length (upper_ascii s) = String.length s.
Proof. induction s as [|ch s IH]; simpl; congruence. Qed.

Lemma substring_length_le (s : string) (n m : nat) :
  (String.length (substring n m s) <= m)%nat.
Proof.
  revert n m. induction s as [|ch s IH]; intros [|n] [|m]; simpl; try lia.
  - specialize (IH 0%nat m). lia.
  - apply IH.
  - apply IH.
Qed.

(** [nameTrunc] never returns more than [l] bytes when [l] is positive. *)
Lemma nameTrunc_length (str : string) (l : Z) :
  0 < l -> len (nameTrunc str l) <= l.
Proof.
  intros Hl. unfold nameTrunc.
  destruct (0 <? l) eqn:E; [|apply Z.ltb_ge in E; lia].
  destruct (len str <? l) eqn:E2.
  - apply Z.ltb_lt in E2. lia.
  - unfold len. pose proof (substring_length_le str 0 (Z.to_nat l)). lia.
Qed.

(** On an ASCII string [strings.ToUpper] keeps the length. *)
Lemma ToUpper_length (w : World) (s : string) :
  isASCII s = true -> String.length (ToUpper w s) = String.length s.
Proof. intros H. unfold ToUpper. rewrite H. apply upper_ascii_length. Qed.

(** ** The calls, path by path *)

(** The steps every path shares: the check on the number of statements,
    the first statement, its decoding. *)
Ltac one_statement stmt :=
  change (Z.of_nat (length [stmt]) >? 1) with false;
  change (Z.of_nat (length [stmt]) =? 0) with false;
  cbv beta iota.
Ltac some_statement stmt rest :=
  change (Z.of_nat (length (stmt :: rest)) =? 0) with false;
  cbv beta iota.
Ltac take_first :=
  unfold bind at 1; unfold index0; unfold ret at 1; cbv beta iota.
Ltac decoded H :=
  unfold bind at 1; rewrite H; unfold orReturn at 1;
  first [unfold ret at 1 | unfold fail at 1]; cbv beta iota.

Lemma priv_test (v : value) (st : state) :
  andM (andM (ifaceNe v VNil) (ifaceNe v (VInt 0))) (ifaceNe v (VString "0")) st
  = (Ret (privileged v), st).
Proof.
  destruct v; unfold andM, bind, ifaceNe, ret, privileged; simpl; try reflexivity.
  destruct (n =? 0); reflexivity.
Qed.

(** Once the token is set, exactly one statement is given, it decodes to an
    object and the request serializes, [NewUser] logs the request, posts it
    and reads the answer. *)
Lemma NewUser_reaches_post (w : World) (req : NewUserRequest) (c : producer)
    (stmt : string) (g : gmap string value) (b : string) :
  snd (GenerateUsername w) = None ->
  Getenv w mysqlToken <> "" ->
  NewUser_Commands req = [stmt] ->
  Unmarshal w stmt = inr (Some g) ->
  Marshal w (Some (NewUser_body w req g)) = inr b ->
  run (NewUser w req) c
  = (NewUser_answer w (NewUser_username w (Some g))
       (Post w (httpClient c) (ConnectionURL c) "application/json" b),
     {| conn := c;
        trace := [EvLock; EvLog "request db create user body:" b;
                  EvPost (ConnectionURL c) "application/json" b; EvUnlock] |}).
Proof.
  intros Hgen Htok Hcmd Hdec Hmar.
  unfold run, NewUser, withLock. rewrite Hcmd.
  destruct (GenerateUsername w) as [name err] eqn:Hg. simpl in Hgen. subst err.
  destruct (len (Getenv w mysqlToken) =? 0) eqn:Hlen.
  { apply len_zero in Hlen. contradiction. }
  one_statement stmt. take_first. decoded Hdec.
  unfold bind at 1. rewrite priv_test.
  unfold NewUser_body, NewUser_username in *. rewrite Hg in *. cbn [fst] in *.
  unfold httpPost, emit, self, assign, orReturn.
  unfold bind, ret. cbn [conn trace].
  destruct (privileged (index (Some g) "priv"));
  rewrite Hmar; cbn [conn trace app].
  all: unfold NewUser_answer, read_status, assertFloat64, fail, ret, panic.
  all: cbn [conn trace app].
  all: destruct (Post w _ _ _ _) as [e|response]; [reflexivity|].
  all: destruct (StatusCode response =? 200); cbn [negb]; [|reflexivity].
  all: destruct (ReadAll response) as [e|rb]; [reflexivity|].
  all: destruct (Unmarshal w rb) as [e|result]; [reflexivity|].
  all: destruct (index result "status"); try reflexivity.
  all: destruct (SFeqb f (S754_zero false)); reflexivity.
Qed.


Ltac ends_early := reflexivity || (intros resp E; discriminate E).

(** On every other path [NewUser] ends with an error or a panic, having
    only taken and released the lock. *)
Lemma NewUser_cases (w : World) (req : NewUserRequest) (c : producer) :
  (exists stmt g b,
      snd (GenerateUsername w) = None /\
      Getenv w mysqlToken <> "" /\
      NewUser_Commands req = [stmt] /\
      Unmarshal w stmt = inr (Some g) /\
      Marshal w (Some (NewUser_body w req g)) = inr b)
  \/ (exists out,
      run (NewUser w req) c = (out, {| conn := c; trace := [EvLock; EvUnlock] |}) /\
      forall resp, out <> Ret resp).
Proof.
  destruct (GenerateUsername w) as [name err] eqn:Hg.
  destruct err as [e|].
  { right. eexists. unfold run, NewUser, withLock. rewrite Hg. split; ends_early. }
  destruct (len (Getenv w mysqlToken) =? 0) eqn:Hlen.
  { right. eexists. unfold run, NewUser, withLock. rewrite Hg, Hlen. split; ends_early. }
  assert (Htok : Getenv w mysqlToken <> "").
  { intros E. apply len_zero in E. congruence. }
  destruct (NewUser_Commands req) as [|stmt [|s2 rest]] eqn:Hcmd.
  { right. eexists. unfold run, NewUser, withLock. rewrite Hg, Hlen, Hcmd.
    split; ends_early. }
  2:{ right. eexists. unfold run, NewUser, withLock. rewrite Hg, Hlen, Hcmd.
      replace (Z.of_nat (length (stmt :: s2 :: rest)) >? 1) with true.
      - split; ends_early.
      - symmetry. apply Z.gtb_lt. simpl length. lia. }
  destruct (Unmarshal w stmt) as [e|[g|]] eqn:Hdec.
  { right. eexists. unfold run, NewUser, withLock. rewrite Hg, Hlen, Hcmd.
    one_statement stmt. take_first. decoded Hdec.
    split; ends_early. }
  2:{ right. eexists. unfold run, NewUser, withLock. rewrite Hg, Hlen, Hcmd.
      one_statement stmt. take_first. decoded Hdec.
      unfold bind at 1. rewrite priv_test. cbv beta iota.
      unfold bind at 1. unfold assign at 1, panic at 1. cbv beta iota.
      split; ends_early. }
  destruct (Marshal w (Some (NewUser_body w req g))) as [e|b] eqn:Hmar.
  2:{ left. exists stmt, g, b. auto. }
  right. exists (Err e). unfold run, NewUser, withLock. rewrite Hg, Hlen, Hcmd.
  one_statement stmt. take_first. decoded Hdec.
  unfold bind at 1. rewrite priv_test.
  unfold NewUser_body, NewUser_username in Hmar. rewrite Hg in Hmar. cbn [fst] in Hmar.
  unfold httpPost, emit, self, assign, orReturn.
  unfold bind, ret, fail. cbn [conn trace].
  destruct (privileged (index (Some g) "priv")); rewrite Hmar; cbn [conn trace app];
    (split; ends_early).
Qed.

(** Given a first statement that decodes to an object and a request that
    serializes, [DeleteUser] posts it and reads the answer; nothing is asked
    of the token or of the statements after the first. *)
Lemma DeleteUser_reaches_post (w : World) (req : DeleteUserRequest) (c : producer)
    (stmt : string) (rest : list string) (g : gmap string value) (b : string) :
  DeleteUser_Commands req = stmt :: rest ->
  Unmarshal w stmt = inr (Some g) ->
  Marshal w (Some (DeleteUser_body w req g)) = inr b ->
  run (DeleteUser w req) c
  = (DeleteUser_answer w (Post w (httpClient c) (ConnectionURL c) "application/json" b),
     {| conn := c;
        trace := [EvLock; EvPost (ConnectionURL c) "application/json" b; EvUnlock] |}).
Proof.
  intros Hcmd Hdec Hmar.
  unfold run, DeleteUser, withLock. rewrite Hcmd.
  some_statement stmt rest. take_first. decoded Hdec.
  unfold DeleteUser_body in Hmar.
  unfold httpPost, emit, self, assign, orReturn.
  unfold bind, ret. cbn [conn trace]. rewrite Hmar. cbn [conn trace app].
  unfold DeleteUser_answer, read_status, assertFloat64, fail, ret, panic, id.
  destruct (Post w _ _ _ _) as [e|response]; [reflexivity|].
  destruct (StatusCode response =? 200); cbn [negb]; [|reflexivity].
  destruct (ReadAll response) as [e|rb]; [reflexivity|].
  destruct (Unmarshal w rb) as [e|result]; [reflexivity|].
  destruct (index result "status"); try reflexivity.
  destruct (SFeqb f (S754_zero false)); reflexivity.
Qed.

Lemma DeleteUser_cases (w : World) (req : DeleteUserRequest) (c : producer) :
  (exists stmt rest g b,
      DeleteUser_Commands req = stmt :: rest /\
      Unmarshal w stmt = inr (Some g) /\
      Marshal w (Some (DeleteUser_body w req g)) = inr b)
  \/ (exists out,
      run (DeleteUser w req) c = (out, {| conn := c; trace := [EvLock; EvUnlock] |}) /\
      forall resp, out <> Ret resp).
Proof.
  destruct (DeleteUser_Commands req) as [|stmt rest] eqn:Hcmd.
  { right. eexists. unfold run, DeleteUser, withLock. rewrite Hcmd. split; ends_early. }
  destruct (Unmarshal w stmt) as [e|[g|]] eqn:Hdec.
  { right. eexists. unfold run, DeleteUser, withLock. rewrite Hcmd.
    some_statement stmt rest. take_first. decoded Hdec.
    split; ends_early. }
  2:{ right. eexists. unfold run, DeleteUser, withLock. rewrite Hcmd.
      some_statement stmt rest. take_first. decoded Hdec.
      unfold bind at 1. unfold assign at 1, panic at 1. cbv beta iota.
      split; ends_early. }
  destruct (Marshal w (Some (DeleteUser_body w req g))) as [e|b] eqn:Hmar.
  2:{ left. exists stmt, rest, g, b. auto. }
  right. exists (Err e). unfold run, DeleteUser, withLock. rewrite Hcmd.
  some_statement stmt rest. take_first. decoded Hdec.
  unfold DeleteUser_body in Hmar.
  unfold httpPost, emit, self, assign, orReturn.
  unfold bind, ret, fail. cbn [conn trace]. rewrite Hmar. cbn [conn trace app].
  split; ends_early.
Qed.

(** ** From the history back to the path taken *)

Lemma NewUser_answered (w : World) (req : NewUserRequest) (c : producer)
    (response : Response) :
  answered w c (trace (snd (run (NewUser w req) c))) response ->
  exists g,
    fst (run (NewUser w req) c)
    = NewUser_answer w (NewUser_username w (Some g)) (inr response).
Proof.
  intros (url & ct & b & Hin & Hpost).
  destruct (NewUser_cases w req c)
    as [(stmt & g & b' & Hgen & Htok & Hcmd & Hdec & Hmar) | (out & Hrun & _)].
  - rewrite (NewUser_reaches_post w req c stmt g b' Hgen Htok Hcmd Hdec Hmar) in Hin |- *.
    cbn [snd fst trace] in *. exists g.
    destruct Hin as [E | [E | [E | [E | []]]]]; try discriminate E.
    injection E as <- <- <-. rewrite Hpost. reflexivity.
  - rewrite Hrun in Hin. cbn [snd trace] in Hin.
    destruct Hin as [E | [E | []]]; discriminate E.
Qed.

Lemma DeleteUser_answered (w : World) (req : DeleteUserRequest) (c : producer)
    (response : Response) :
  answered w c (trace (snd (run (DeleteUser w req) c))) response ->
  fst (run (DeleteUser w req) c) = DeleteUser_answer w (inr response).
Proof.
  intros (url & ct & b & Hin & Hpost).
  destruct (DeleteUser_cases w req c)
    as [(stmt & rest & g & b' & Hcmd & Hdec & Hmar) | (out & Hrun & _)].
  - rewrite (DeleteUser_reaches_post w req c stmt rest g b' Hcmd Hdec Hmar) in Hin |- *.
    cbn [snd fst trace] in *.
    destruct Hin as [E | [E | [E | []]]]; try discriminate E.
    injection E as <- <- <-. rewrite Hpost. reflexivity.
  - rewrite Hrun in Hin. cbn [snd trace] in Hin.
    destruct Hin as [E | [E | []]]; discriminate E.
Qed.

Lemma NewUser_username_shape (w : World) (body : gomap) :
  exists suffix,
    (suffix = "r" \/ suffix = "rw") /\
    NewUser_username w body
    = ToUpper w (nameTrunc (fst (GenerateUsername w)) maxKeyLength) +:+ "_" +:+ suffix.
Proof.
  unfold NewUser_username.
  destruct (privileged (index body "priv")); eauto.
Qed.

(** ** What a successful [NewUser] went through *)

Lemma NewUser_answer_Ret (w : World) (username : string) (r : error + Response)
    (resp : NewUserResponse) :
  NewUser_answer w username r = Ret resp -> Username resp = username.
Proof.
  unfold NewUser_answer, read_status. intros H.
  destruct r as [e|response]; [discriminate|].
  destruct (StatusCode response =? 200); [|discriminate].
  destruct (ReadAll response) as [e|rb]; [discriminate|].
  destruct (Unmarshal w rb) as [e|result]; [discriminate|].
  destruct (index result "status"); try discriminate.
  destruct (SFeqb f (S754_zero false)); [|discriminate].
  injection H as <-. reflexivity.
Qed.

Lemma NewUser_returns (w : World) (req : NewUserRequest) (c : producer)
    (resp : NewUserResponse) (st : state) :
  run (NewUser w req) c = (Ret resp, st) ->
  exists stmt g b,
    NewUser_Commands req = [stmt] /\
    Unmarshal w stmt = inr (Some g) /\
    Marshal w (Some (NewUser_body w req g)) = inr b /\
    Username resp = NewUser_username w (Some g) /\
    st = {| conn := c;
            trace := [EvLock; EvLog "request db create user body:" b;
                      EvPost (ConnectionURL c) "application/json" b; EvUnlock] |}.
Proof.
  intros Hrun.
  destruct (NewUser_cases w req c)
    as [(stmt & g & b & Hgen & Htok & Hcmd & Hdec & Hmar) | (out & Hrun' & Hout)].
  - rewrite (NewUser_reaches_post w req c stmt g b Hgen Htok Hcmd Hdec Hmar) in Hrun.
    injection Hrun as Hans <-.
    exists stmt, g, b. repeat split; try assumption.
    exact (NewUser_answer_Ret _ _ _ _ Hans).
  - rewrite Hrun' in Hrun. injection Hrun as -> _. exfalso. exact (Hout resp eq_refl).
Qed.

(** * The claims *)

(** C1, at the JSON number.  A create-statement whose [priv] is a number
    decodes to a float64, which the comparison with the constant [0] (an int
    once boxed) never equals: the username of a successful call then ends in
    [_rw], not in [_r], for the number 0 as for any other. *)
Theorem priv_number_gets_rw (w : World) (c : producer) (req : NewUserRequest)
    (stmt : string) (g : gmap string value) (f : spec_float)
    (resp : NewUserResponse) (st : state) :
  NewUser_Commands req = [stmt] ->
  Unmarshal w stmt = inr (Some g) ->
  g !! "priv" = Some (VFloat64 f) ->
  run (NewUser w req) c = (Ret resp, st) ->
  hasSuffix "_rw" (Username resp) = true /\ hasSuffix "_r" (Username resp) = false.
Proof.
  intros Hcmd Hdec Hpriv Hrun.
  destruct (NewUser_returns w req c resp st Hrun)
    as (stmt' & g' & b & Hcmd' & Hdec' & _ & Hname & _).
  rewrite Hcmd in Hcmd'. injection Hcmd' as <-.
  rewrite Hdec in Hdec'. injection Hdec' as <-.
  rewrite Hname. unfold NewUser_username, index. rewrite Hpriv.
  cbn [default from_option id privileged].
  set (pre := ToUpper w _).
  change (pre +:+ "_" +:+ "rw") with (pre +:+ "_rw").
  split; [apply hasSuffix_append|].
  unfold hasSuffix. rewrite length_append.
  replace (String.length pre + String.length "_rw" - String.length "_r")%nat
    with (String.length pre + 1)%nat by (simpl; lia).
  rewrite substring_skip. apply andb_false_r.
Qed.

Lemma priv_number_gets_rw_witness :
  hasSuffix "_rw" "V_AB3DE5GH7JK_rw" = true /\ hasSuffix "_r" "V_AB3DE5GH7JK_rw" = false.
Proof.
  exact (priv_number_gets_rw
           (Sample.world "tok" (Sample.http 200 Sample.body_ok)) Sample.c0
           {| NewUser_Commands := [Sample.stmt_priv_0]; NewUser_Password := "pw" |}
           Sample.stmt_priv_0 {[ "priv" := VFloat64 Sample.zero ]} Sample.zero
           {| Username := "V_AB3DE5GH7JK_rw" |}
           {| conn := Sample.c0;
              trace := [EvLock;
                        EvLog "request db create user body:"
                          "AddUser token=tok username=V_AB3DE5GH7JK_rw";
                        EvPost "http://db.example/api" "application/json"
                          "AddUser token=tok username=V_AB3DE5GH7JK_rw";
                        EvUnlock] |}
           eq_refl eq_refl eq_refl eq_refl).
Defined.

(** C2. When the remote answers 200 with a body that decodes to an object
    whose [status] is absent or is not a number, neither [NewUser] nor
    [DeleteUser] returns an error value: the type assertion on [status]
    panics. *)
Theorem status_not_a_number_panics (w : World) (c : producer)
    (req : NewUserRequest) (dreq : DeleteUserRequest)
    (response : Response) (body : string) (g : gmap string value) :
  StatusCode response = 200 ->
  ReadAll response = inr body ->
  Unmarshal w body = inr (Some g) ->
  (forall f, g !! "status" <> Some (VFloat64 f)) ->
  (answered w c (trace (snd (run (NewUser w req) c))) response ->
   exists msg, fst (run (NewUser w req) c) = Panic msg) /\
  (answered w c (trace (snd (run (DeleteUser w dreq) c))) response ->
   exists msg, fst (run (DeleteUser w dreq) c) = Panic msg).
Proof.
  intros Hcode Hread Hdec Hstatus.
  assert (Hpanic : forall A (heading : string -> error) (ok : A),
             exists msg, read_status w heading ok (Some g) = Panic msg).
  { intros A heading ok. unfold read_status, index.
    destruct (g !! "status") as [v|] eqn:E; cbn [default from_option id]; [|eauto].
    destruct v; eauto. exfalso. exact (Hstatus f eq_refl). }
  split; intros Hans.
  - destruct (NewUser_answered w req c response Hans) as [g0 ->].
    unfold NewUser_answer. rewrite Hcode, Hread, Hdec. cbn [Z.eqb Pos.eqb].
    apply Hpanic.
  - rewrite (DeleteUser_answered w dreq c response Hans).
    unfold DeleteUser_answer. rewrite Hcode, Hread, Hdec. cbn [Z.eqb Pos.eqb].
    apply Hpanic.
Qed.

Lemma status_not_a_number_panics_witness :
  (exists msg,
      fst (run (NewUser (Sample.world "tok" (Sample.http 200 Sample.body_no_status))
                  {| NewUser_Commands := [Sample.stmt_priv_1]; NewUser_Password := "pw" |})
             Sample.c0) = Panic msg) /\
  (exists msg,
      fst (run (DeleteUser (Sample.world "tok" (Sample.http 200 Sample.body_no_status))
                  {| DeleteUser_Username := "BOB_r";
                     DeleteUser_Commands := [Sample.stmt_no_priv] |})
             Sample.c0) = Panic msg).
Proof.
  destruct (status_not_a_number_panics
              (Sample.world "tok" (Sample.http 200 Sample.body_no_status)) Sample.c0
              {| NewUser_Commands := [Sample.stmt_priv_1]; NewUser_Password := "pw" |}
              {| DeleteUser_Username := "BOB_r"; DeleteUser_Commands := [Sample.stmt_no_priv] |}
              {| StatusCode := 200; ReadAll := inr Sample.body_no_status |}
              Sample.body_no_status ∅
              eq_refl eq_refl eq_refl) as [HN HD].
  - intros f. rewrite lookup_empty. discriminate.
  - split.
    + apply HN. eexists _, _, _. split; [|reflexivity].
      vm_compute. right. right. left. reflexivity.
    + apply HD. eexists _, _, _. split; [|reflexivity].
      vm_compute. right. left. reflexivity.
Defined.

(** C3, as the code has it.  With an empty [mysql_token], a [NewUser] whose
    username generation did not fail ends with the error "not exist mysql
    token" having only taken and released the lock; [DeleteUser] does not
    look at the token: given a first statement that decodes to an object and
    a request that serializes, it posts the request with an empty token. *)
Theorem missing_token (w : World) (c : producer)
    (req : NewUserRequest) (dreq : DeleteUserRequest) :
  Getenv w mysqlToken = "" ->
  (snd (GenerateUsername w) = None ->
   run (NewUser w req) c
   = (Err "not exist mysql token", {| conn := c; trace := [EvLock; EvUnlock] |}) /\
   network_calls (trace (snd (run (NewUser w req) c))) = []) /\
  (forall stmt rest g b,
      DeleteUser_Commands dreq = stmt :: rest ->
      Unmarshal w stmt = inr (Some g) ->
      Marshal w (Some (<["username" := VString (DeleteUser_Username dreq)]>
                         (<["token" := VString ""]>
                            (<["action" := VString delUser]> g)))) = inr b ->
      network_calls (trace (snd (run (DeleteUser w dreq) c)))
      = [EvPost (ConnectionURL c) "application/json" b]).
Proof.
  intros Htok. split.
  - intros Hgen.
    assert (E : run (NewUser w req) c
                = (Err "not exist mysql token",
                   {| conn := c; trace := [EvLock; EvUnlock] |})).
    { unfold run, NewUser, withLock.
      destruct (GenerateUsername w) as [name err]. simpl in Hgen. subst err.
      rewrite Htok. reflexivity. }
    rewrite E. split; reflexivity.
  - intros stmt rest g b Hcmd Hdec Hmar.
    rewrite (DeleteUser_reaches_post w dreq c stmt rest g b Hcmd Hdec).
    + reflexivity.
    + unfold DeleteUser_body. rewrite Htok. exact Hmar.
Qed.

Lemma missing_token_witness :
  (run (NewUser (Sample.world "" (Sample.http 200 Sample.body_ok))
          {| NewUser_Commands := [Sample.stmt_no_priv]; NewUser_Password := "pw" |})
       Sample.c0
   = (Err "not exist mysql token", {| conn := Sample.c0; trace := [EvLock; EvUnlock] |}) /\
   network_calls
     (trace (snd (run (NewUser (Sample.world "" (Sample.http 200 Sample.body_ok))
                         {| NewUser_Commands := [Sample.stmt_no_priv];
                            NewUser_Password := "pw" |})
                    Sample.c0))) = []) /\
  network_calls
    (trace (snd (run (DeleteUser (Sample.world "" (Sample.http 200 Sample.body_ok))
                        {| DeleteUser_Username := "BOB_r";
                           DeleteUser_Commands := [Sample.stmt_no_priv] |})
                   Sample.c0)))
  = [EvPost "http://db.example/api" "application/json"
       "VaultDelUser token= username=BOB_r"].
Proof.
  destruct (missing_token
              (Sample.world "" (Sample.http 200 Sample.body_ok)) Sample.c0
              {| NewUser_Commands := [Sample.stmt_no_priv]; NewUser_Password := "pw" |}
              {| DeleteUser_Username := "BOB_r"; DeleteUser_Commands := [Sample.stmt_no_priv] |}
              eq_refl) as [HN HD].
  split.
  - apply HN. reflexivity.
  - apply (HD Sample.stmt_no_priv [] ∅); reflexivity.
Defined.

(** C3 as stated fails for [DeleteUser]: with an empty [mysql_token] it
    performs the HTTP exchange, and succeeds when the remote accepts. *)
Lemma DeleteUser_posts_without_token :
  Getenv (Sample.world "" (Sample.http 200 Sample.body_ok)) mysqlToken = "" /\
  run (DeleteUser (Sample.world "" (Sample.http 200 Sample.body_ok))
         {| DeleteUser_Username := "BOB_r"; DeleteUser_Commands := [Sample.stmt_no_priv] |})
      Sample.c0
  = (Ret Build_DeleteUserResponse,
     {| conn := Sample.c0;
        trace := [EvLock;
                  EvPost "http://db.example/api" "application/json"
                    "VaultDelUser token= username=BOB_r";
                  EvUnlock] |}).
Proof. split; vm_compute; reflexivity. Qed.

(** C4, as the code has it.  On an answer whose status code is not 200,
    [NewUser] fails with a message naming the suffixed username and the
    status code, and [DeleteUser] fails with a message naming the status code
    only; neither reads the response body, whatever it holds. *)
Theorem non_200_fails (w : World) (c : producer)
    (req : NewUserRequest) (dreq : DeleteUserRequest) (response : Response) :
  StatusCode response <> 200 ->
  (answered w c (trace (snd (run (NewUser w req) c))) response ->
   exists suffix username msg,
     (suffix = "r" \/ suffix = "rw") /\
     username = ToUpper w (nameTrunc (fst (GenerateUsername w)) maxKeyLength)
                +:+ "_" +:+ suffix /\
     msg = "invoke db create user:" +:+ username
           +:+ " failed: http statusCode: %!s(int="
           +:+ itoa (StatusCode response) +:+ ")" /\
     fst (run (NewUser w req) c) = Err msg /\
     contains username msg = true /\
     contains (itoa (StatusCode response)) msg = true) /\
  (answered w c (trace (snd (run (DeleteUser w dreq) c))) response ->
   exists msg,
     msg = "delete user failed: http statusCode: %!s(int="
           +:+ itoa (StatusCode response) +:+ ")" /\
     fst (run (DeleteUser w dreq) c) = Err msg /\
     contains (itoa (StatusCode response)) msg = true).
Proof.
  intros Hcode. apply Z.eqb_neq in Hcode.
  split; intros Hans.
  - destruct (NewUser_answered w req c response Hans) as [g ->].
    destruct (NewUser_username_shape w (Some g)) as (suffix & Hsuf & Hname).
    eexists suffix, (NewUser_username w (Some g)), _.
    split; [exact Hsuf|]. split; [exact Hname|]. split; [reflexivity|].
    unfold NewUser_answer. rewrite Hcode.
    split; [reflexivity|]. split.
    + apply contains_append.
    + apply contains_skip, contains_skip, contains_append.
  - rewrite (DeleteUser_answered w dreq c response Hans).
    eexists. split; [reflexivity|].
    unfold DeleteUser_answer. rewrite Hcode.
    split; [reflexivity|]. apply contains_append.
Qed.

Lemma non_200_fails_witness :
  (exists msg,
      fst (run (NewUser (Sample.world "tok" (Sample.http 500 Sample.body_ok))
                  {| NewUser_Commands := [Sample.stmt_no_priv]; NewUser_Password := "pw" |})
             Sample.c0) = Err msg /\
      contains "V_AB3DE5GH7JK_r" msg = true /\ contains "500" msg = true) /\
  (exists msg,
      fst (run (DeleteUser (Sample.world "tok" (Sample.http 500 Sample.body_ok))
                  {| DeleteUser_Username := "BOB_r";
                     DeleteUser_Commands := [Sample.stmt_no_priv] |})
             Sample.c0) = Err msg /\
      contains "500" msg = true).
Proof.
  destruct (non_200_fails
              (Sample.world "tok" (Sample.http 500 Sample.body_ok)) Sample.c0
              {| NewUser_Commands := [Sample.stmt_no_priv]; NewUser_Password := "pw" |}
              {| DeleteUser_Username := "BOB_r"; DeleteUser_Commands := [Sample.stmt_no_priv] |}
              {| StatusCode := 500; ReadAll := inr Sample.body_ok |}) as [HN HD].
  - cbn [StatusCode]. lia.
  - split.
    + destruct HN as (suffix & username & msg & _ & _ & _ & Hrun & _).
      { eexists _, _, _. split; [|reflexivity].
        vm_compute. right. right. left. reflexivity. }
      exists msg. split; [exact Hrun|].
      vm_compute in Hrun. injection Hrun as <-. split; vm_compute; reflexivity.
    + destruct HD as (msg & Hmsg & Hrun & Hc).
      { eexists _, _, _. split; [|reflexivity].
        vm_compute. right. left. reflexivity. }
      exists msg. split; [exact Hrun | exact Hc].
Defined.

(** C4 as stated fails for [DeleteUser]: its message on a 500 answer does
    not contain the username the request was for. *)
Lemma non_200_DeleteUser_omits_username :
  fst (run (DeleteUser (Sample.world "tok" (Sample.http 500 Sample.body_ok))
              {| DeleteUser_Username := "BOB_r";
                 DeleteUser_Commands := [Sample.stmt_no_priv] |})
         Sample.c0)
  = Err "delete user failed: http statusCode: %!s(int=500)" /\
  contains "BOB_r" "delete user failed: http statusCode: %!s(int=500)" = false.
Proof. split; vm_compute; reflexivity. Qed.

(** C5. When the remote answers 200 with a body that decodes to an object
    whose [status] is a number: a zero makes both calls succeed; anything
    else makes them fail with a message that ends in the rendering of the
    body's [error] field, so that a string [error] is contained in it. *)
Theorem status_decides (w : World) (c : producer)
    (req : NewUserRequest) (dreq : DeleteUserRequest)
    (response : Response) (body : string) (g : gmap string value) (f : spec_float) :
  StatusCode response = 200 ->
  ReadAll response = inr body ->
  Unmarshal w body = inr (Some g) ->
  g !! "status" = Some (VFloat64 f) ->
  (answered w c (trace (snd (run (NewUser w req) c))) response ->
   if SFeqb f (S754_zero false)
   then exists resp, fst (run (NewUser w req) c) = Ret resp
   else exists username msg,
       msg = "invoke db create user:" +:+ username +:+ " failed: "
             +:+ fmtS w (default VNil (g !! "error")) /\
       fst (run (NewUser w req) c) = Err msg /\
       forall e, g !! "error" = Some (VString e) -> contains e msg = true) /\
  (answered w c (trace (snd (run (DeleteUser w dreq) c))) response ->
   if SFeqb f (S754_zero false)
   then fst (run (DeleteUser w dreq) c) = Ret Build_DeleteUserResponse
   else exists msg,
       msg = "delete user failed: " +:+ fmtS w (default VNil (g !! "error")) /\
       fst (run (DeleteUser w dreq) c) = Err msg /\
       forall e, g !! "error" = Some (VString e) -> contains e msg = true).
Proof.
  intros Hcode Hread Hdec Hstatus.
  split; intros Hans.
  - destruct (NewUser_answered w req c response Hans) as [g0 ->].
    unfold NewUser_answer, read_status, index.
    rewrite Hcode, Hread, Hdec, Hstatus. cbn [Z.eqb Pos.eqb default from_option id].
    destruct (SFeqb f (S754_zero false)); cbv beta iota; [eauto|].
    eexists _, _. split; [reflexivity|]. split; [reflexivity|].
    intros e He. rewrite He. cbn [default from_option id fmtS].
    apply contains_skip, contains_skip, contains_at_end.
  - rewrite (DeleteUser_answered w dreq c response Hans).
    unfold DeleteUser_answer, read_status, index.
    rewrite Hcode, Hread, Hdec, Hstatus. cbn [Z.eqb Pos.eqb default from_option id].
    destruct (SFeqb f (S754_zero false)); cbv beta iota; [reflexivity|].
    eexists. split; [reflexivity|]. split; [reflexivity|].
    intros e He. rewrite He. cbn [default from_option id fmtS].
    apply contains_at_end.
Qed.

Lemma status_decides_witness :
  (exists msg,
      fst (run (NewUser (Sample.world "tok" (Sample.http 200 Sample.body_boom))
                  {| NewUser_Commands := [Sample.stmt_no_priv]; NewUser_Password := "pw" |})
             Sample.c0) = Err msg /\
      contains "boom" msg = true) /\
  (exists msg,
      fst (run (DeleteUser (Sample.world "tok" (Sample.http 200 Sample.body_boom))
                  {| DeleteUser_Username := "BOB_r";
                     DeleteUser_Commands := [Sample.stmt_no_priv] |})
             Sample.c0) = Err msg /\
      contains "boom" msg = true).
Proof.
  destruct (status_decides
              (Sample.world "tok" (Sample.http 200 Sample.body_boom)) Sample.c0
              {| NewUser_Commands := [Sample.stmt_no_priv]; NewUser_Password := "pw" |}
              {| DeleteUser_Username := "BOB_r"; DeleteUser_Commands := [Sample.stmt_no_priv] |}
              {| StatusCode := 200; ReadAll := inr Sample.body_boom |}
              Sample.body_boom
              (<[ "error" := VString "boom" ]> {[ "status" := VFloat64 Sample.one ]})
              Sample.one
              eq_refl eq_refl eq_refl) as [HN HD].
  - vm_compute. reflexivity.
  - split.
    + destruct HN as (username & msg & _ & Hrun & Hc).
      { eexists _, _, _. split; [|reflexivity].
        vm_compute. right. right. left. reflexivity. }
      exists msg. split; [exact Hrun|]. apply Hc. vm_compute. reflexivity.
    + destruct HD as (msg & _ & Hrun & Hc).
      { eexists _, _, _. split; [|reflexivity].
        vm_compute. right. left. reflexivity. }
      exists msg. split; [exact Hrun|]. apply Hc. vm_compute. reflexivity.
Defined.

(** The other side of C5, evaluated: a zero [status] makes both calls
    succeed. *)
Example status_zero_succeeds :
  fst (run (NewUser (Sample.world "tok" (Sample.http 200 Sample.body_ok))
              {| NewUser_Commands := [Sample.stmt_no_priv]; NewUser_Password := "pw" |})
         Sample.c0)
  = Ret {| Username := "V_AB3DE5GH7JK_r" |} /\
  fst (run (DeleteUser (Sample.world "tok" (Sample.http 200 Sample.body_ok))
              {| DeleteUser_Username := "BOB_r";
                 DeleteUser_Commands := [Sample.stmt_no_priv] |})
         Sample.c0)
  = Ret Build_DeleteUserResponse.
Proof. split; vm_compute; reflexivity. Qed.

(** The generator's error comes before the token check. *)
Example generator_error_comes_first :
  fst (run (NewUser
              {| Getenv := fun _ => "";
                 GenerateUsername := ("", Some "unexpected EOF");
                 MapToUpper := fun s => s;
                 Unmarshal := Sample.unmarshal;
                 Marshal := Sample.marshal;
                 Post := fun _ _ _ _ => Sample.http 200 Sample.body_ok;
                 FormatOther := fun _ => "?";
                 NewDecoder := None;
                 Decode := fun _ c => (c, None);
                 ConfigAfterDecode := fun cfg _ => cfg |}
              {| NewUser_Commands := [Sample.stmt_no_priv]; NewUser_Password := "pw" |})
         Sample.c0)
  = Err "failed to generate username: unexpected EOF".
Proof. vm_compute. reflexivity. Qed.

(** C6, as the code has it.  Once username generation has succeeded and
    the token is set, [NewUser] with no statement fails with
    "create_statement is empty" and with more than one fails with "a maximum
    of one create_statement is supported"; [DeleteUser] with no statement
    fails with its own message, whatever the token; each of these calls only
    takes and releases the lock. *)
Theorem statement_count (w : World) (c : producer)
    (req : NewUserRequest) (dreq : DeleteUserRequest) :
  (snd (GenerateUsername w) = None ->
   Getenv w mysqlToken <> "" ->
   length (NewUser_Commands req) <> 1%nat ->
   run (NewUser w req) c
   = (Err (match NewUser_Commands req with
           | [] => "create_statement is empty"
           | _ => "a maximum of one create_statement is supported"
           end),
      {| conn := c; trace := [EvLock; EvUnlock] |})) /\
  (DeleteUser_Commands dreq = [] ->
   run (DeleteUser w dreq) c
   = (Err ("revocation %!f(string=" +:+ DeleteUser_Username dreq
           +:+ ")ailed,Revocation Statements is empty"),
      {| conn := c; trace := [EvLock; EvUnlock] |})).
Proof.
  split.
  - intros Hgen Htok Hlen.
    unfold run, NewUser, withLock.
    destruct (GenerateUsername w) as [name err]. simpl in Hgen. subst err.
    destruct (len (Getenv w mysqlToken) =? 0) eqn:E.
    { apply len_zero in E. contradiction. }
    destruct (NewUser_Commands req) as [|s1 [|s2 rest]]; [reflexivity | | ].
    + exfalso. apply Hlen. reflexivity.
    + replace (Z.of_nat (length (s1 :: s2 :: rest)) >? 1) with true; [reflexivity|].
      symmetry. apply Z.gtb_lt. simpl length. lia.
  - intros Hcmd. unfold run, DeleteUser, withLock. rewrite Hcmd. reflexivity.
Qed.

Lemma statement_count_witness :
  run (NewUser (Sample.world "tok" (Sample.http 200 Sample.body_ok))
         {| NewUser_Commands := [Sample.stmt_no_priv; Sample.stmt_priv_1];
            NewUser_Password := "pw" |})
      Sample.c0
  = (Err "a maximum of one create_statement is supported",
     {| conn := Sample.c0; trace := [EvLock; EvUnlock] |}) /\
  run (DeleteUser (Sample.world "" (Sample.http 200 Sample.body_ok))
         {| DeleteUser_Username := "BOB_r"; DeleteUser_Commands := [] |})
      Sample.c0
  = (Err "revocation %!f(string=BOB_r)ailed,Revocation Statements is empty",
     {| conn := Sample.c0; trace := [EvLock; EvUnlock] |}).
Proof.
  split.
  - apply (statement_count (Sample.world "tok" (Sample.http 200 Sample.body_ok)) Sample.c0
             {| NewUser_Commands := [Sample.stmt_no_priv; Sample.stmt_priv_1];
                NewUser_Password := "pw" |}
             {| DeleteUser_Username := "BOB_r"; DeleteUser_Commands := [] |}).
    + reflexivity.
    + discriminate.
    + simpl. lia.
  - apply (statement_count (Sample.world "" (Sample.http 200 Sample.body_ok)) Sample.c0
             {| NewUser_Commands := []; NewUser_Password := "pw" |}
             {| DeleteUser_Username := "BOB_r"; DeleteUser_Commands := [] |}).
    reflexivity.
Defined.

Example no_statement_with_token :
  run (NewUser (Sample.world "tok" (Sample.http 200 Sample.body_ok))
         {| NewUser_Commands := []; NewUser_Password := "pw" |})
      Sample.c0
  = (Err "create_statement is empty", {| conn := Sample.c0; trace := [EvLock; EvUnlock] |}).
Proof. vm_compute. reflexivity. Qed.

(** C6 as stated fails when the token is missing too: a [NewUser] with no
    statement then ends with the token error, the first of the two checks. *)
Lemma no_statement_without_token :
  NewUser_Commands {| NewUser_Commands := []; NewUser_Password := "pw" |} = [] /\
  fst (run (NewUser (Sample.world "" (Sample.http 200 Sample.body_ok))
              {| NewUser_Commands := []; NewUser_Password := "pw" |})
         Sample.c0)
  = Err "not exist mysql token".
Proof. split; vm_compute; reflexivity. Qed.

(** C7. The name a successful [NewUser] returns is the generated name cut
    to [maxKeyLength] bytes, then upper-cased, then suffixed with [_r] or
    [_rw]; the part before the suffix is at most 13 bytes long (the name cut
    is ASCII, as the names of [credsutil] are), and the suffixed name is
    the [username] of the object that was serialized and posted. *)
Theorem username_truncated_then_suffixed (w : World) (c : producer)
    (req : NewUserRequest) (resp : NewUserResponse) (st : state) :
  isASCII (nameTrunc (fst (GenerateUsername w)) maxKeyLength) = true ->
  run (NewUser w req) c = (Ret resp, st) ->
  exists pre suffix g b,
    pre = ToUpper w (nameTrunc (fst (GenerateUsername w)) maxKeyLength) /\
    len (nameTrunc (fst (GenerateUsername w)) maxKeyLength) <= 13 /\
    len pre <= 13 /\
    (suffix = "r" \/ suffix = "rw") /\
    Username resp = pre +:+ "_" +:+ suffix /\
    g !! "username" = Some (VString (Username resp)) /\
    Marshal w (Some g) = inr b /\
    network_calls (trace st) = [EvPost (ConnectionURL c) "application/json" b].
Proof.
  intros Hascii Hrun.
  destruct (NewUser_returns w req c resp st Hrun)
    as (stmt & g & b & Hcmd & Hdec & Hmar & Hname & ->).
  destruct (NewUser_username_shape w (Some g)) as (suffix & Hsuf & Hshape).
  pose proof (nameTrunc_length (fst (GenerateUsername w)) maxKeyLength eq_refl) as Hcut.
  exists (ToUpper w (nameTrunc (fst (GenerateUsername w)) maxKeyLength)), suffix,
    (NewUser_body w req g), b.
  split; [reflexivity|]. split; [exact Hcut|]. split.
  { unfold len in *. rewrite (ToUpper_length w _ Hascii). exact Hcut. }
  split; [exact Hsuf|]. split; [congruence|]. split.
  { rewrite Hname. unfold NewUser_body.
    rewrite lookup_insert_ne by discriminate.
    rewrite lookup_insert_ne by discriminate.
    rewrite lookup_insert_ne by discriminate.
    apply lookup_insert_eq. }
  split; [exact Hmar | reflexivity].
Qed.

Lemma username_truncated_then_suffixed_witness :
  exists pre suffix g b,
    pre = "V_AB3DE5GH7JK" /\
    len (nameTrunc "v_aB3dE5gH7jK9mN1pQ3sT_1700000000" maxKeyLength) <= 13 /\
    len pre <= 13 /\
    (suffix = "r" \/ suffix = "rw") /\
    "V_AB3DE5GH7JK_rw" = pre +:+ "_" +:+ suffix /\
    g !! "username" = Some (VString "V_AB3DE5GH7JK_rw") /\
    Sample.marshal (Some g) = inr b /\
    network_calls
      [EvLock;
       EvLog "request db create user body:" "AddUser token=tok username=V_AB3DE5GH7JK_rw";
       EvPost "http://db.example/api" "application/json"
         "AddUser token=tok username=V_AB3DE5GH7JK_rw";
       EvUnlock]
    = [EvPost "http://db.example/api" "application/json" b].
Proof.
  exact (username_truncated_then_suffixed
           (Sample.world "tok" (Sample.http 200 Sample.body_ok)) Sample.c0
           {| NewUser_Commands := [Sample.stmt_priv_1]; NewUser_Password := "pw" |}
           {| Username := "V_AB3DE5GH7JK_rw" |}
           {| conn := Sample.c0;
              trace := [EvLock;
                        EvLog "request db create user body:"
                          "AddUser token=tok username=V_AB3DE5GH7JK_rw";
                        EvPost "http://db.example/api" "application/json"
                          "AddUser token=tok username=V_AB3DE5GH7JK_rw";
                        EvUnlock] |}
           eq_refl eq_refl).
Defined.

(** ** The mutex serializes the calls *)

(** Both calls are one critical section: the lock, events that leave the
    mutex alone, the unlock. *)
Lemma events_of_shape (c : producer) (k : call) :
  exists t, events_of c k = EvLock :: t /\ critical t.
Proof.
  destruct k as [w req | w req]; unfold events_of.
  - destruct (NewUser_cases w req c)
      as [(stmt & g & b & Hgen & Htok & Hcmd & Hdec & Hmar) | (out & Hrun & _)].
    + rewrite (NewUser_reaches_post w req c stmt g b Hgen Htok Hcmd Hdec Hmar).
      eexists. split; [reflexivity|].
      exists [EvLog "request db create user body:" b;
              EvPost (ConnectionURL c) "application/json" b].
      split; [reflexivity|]. repeat constructor.
    + rewrite Hrun. eexists. split; [reflexivity|].
      exists []. split; [reflexivity | constructor].
  - destruct (DeleteUser_cases w req c)
      as [(stmt & rest & g & b & Hcmd & Hdec & Hmar) | (out & Hrun & _)].
    + rewrite (DeleteUser_reaches_post w req c stmt rest g b Hcmd Hdec Hmar).
      eexists. split; [reflexivity|].
      exists [EvPost (ConnectionURL c) "application/json" b].
      split; [reflexivity|]. repeat constructor.
    + rewrite Hrun. eexists. split; [reflexivity|].
      exists []. split; [reflexivity | constructor].
Qed.

Lemma critical_nonempty (t : list event) : critical t -> t <> [].
Proof. intros (mid & -> & _). destruct mid; discriminate. Qed.

(** The head of a critical section is the unlock that ends it, or an event
    that leaves the mutex alone, with a critical section after it. *)
Lemma critical_head (e : event) (rest : list event) :
  critical (e :: rest) ->
  (e = EvUnlock /\ rest = []) \/ (is_lock_op e = false /\ critical rest).
Proof.
  intros (mid & E & Hfree). destruct mid as [|e' mid'].
  - injection E as -> ->. left. split; reflexivity.
  - injection E as -> ->. right. inversion Hfree as [|? ? He Hmid]; subst.
    split; [exact He|]. exists mid'. split; [reflexivity | exact Hmid].
Qed.

Lemma busy_insert (l : list goroutine) (i : nat) (g g' : goroutine) :
  l !! i = Some g ->
  (busy (<[i := g']> l) + b2n (in_progress g) = busy l + b2n (in_progress g'))%nat.
Proof.
  revert i. induction l as [|h l IH]; intros i Hi; [discriminate|].
  destruct i as [|i].
  - injection Hi as ->. unfold busy. cbn [insert list_insert List.filter].
    destruct (in_progress g), (in_progress g'); cbn [length b2n]; lia.
  - specialize (IH i Hi). unfold busy in *. cbn [insert list_insert List.filter] in *.
    destruct (in_progress h); cbn [length]; [|exact IH].
    rewrite !Nat.add_succ_l. f_equal. exact IH.
Qed.

Lemma shaped_insert (l : list goroutine) (i : nat) (g' : goroutine) :
  Forall shaped l -> shaped g' -> Forall shaped (<[i := g']> l).
Proof.
  intros Hl Hg. revert i. induction Hl as [|h l Hh Hl IH]; intros i; [constructor|].
  destruct i as [|i]; cbn [insert list_insert]; constructor; auto.
Qed.

Lemma step_invariant (s s' : system) (i : nat) :
  invariant s -> step s i = Some s' -> invariant s'.
Proof.
  intros [Hshape Hbusy] Hstep. unfold step in Hstep.
  destruct (goroutines s !! i) as [g|] eqn:Hi; [|discriminate].
  destruct (pending g) as [|e rest] eqn:Hp; [discriminate|].
  assert (Hg : shaped g).
  { exact (Forall_lookup_1 _ _ _ _ Hshape Hi). }
  set (g' := {| performed := performed g ++ [e]; pending := rest |}) in *.
  pose proof (busy_insert (goroutines s) i g g' Hi) as Hcount.
  assert (Hg'p : in_progress g' = negb (match rest with [] => true | _ => false end)).
  { unfold g', in_progress. cbn [performed pending].
    destruct (performed g); destruct rest; reflexivity. }
  unfold shaped in Hg. unfold in_progress in Hcount at 1. rewrite Hp in Hg, Hcount.
  destruct (performed g) as [|p ps] eqn:Hperf.
  - (* before the lock *)
    destruct Hg as (t & E & Hcrit). injection E as -> ->.
    destruct (locked s) eqn:Hm; [discriminate|]. injection Hstep as <-.
    split; cbn [goroutines locked].
    + apply shaped_insert; [exact Hshape|].
      unfold shaped, g'. cbn [performed pending]. rewrite ?Hperf. cbn [app].
      right. exact Hcrit.
    + pose proof (critical_nonempty t Hcrit).
      rewrite Hg'p in Hcount. destruct t; [contradiction|].
      cbn [b2n negb] in *. lia.
  - (* inside the critical section *)
    destruct Hg as [E | Hcrit]; [discriminate|].
    destruct (critical_head e rest Hcrit) as [[-> ->] | [Hfree Hrest]].
    + destruct (locked s) eqn:Hm; [|discriminate]. injection Hstep as <-.
      split; cbn [goroutines locked].
      * apply shaped_insert; [exact Hshape|].
        unfold shaped, g'. cbn [performed pending]. rewrite ?Hperf. cbn [app].
        left. reflexivity.
      * rewrite Hg'p in Hcount. cbn [b2n negb] in *. lia.
    + assert (Hs' : s' = {| locked := locked s; goroutines := <[i := g']> (goroutines s) |}).
      { destruct e; try discriminate Hfree; injection Hstep as <-; reflexivity. }
      subst s'. split; cbn [goroutines locked].
      * apply shaped_insert; [exact Hshape|].
        unfold shaped, g'. cbn [performed pending]. rewrite ?Hperf. cbn [app].
        right. exact Hrest.
      * pose proof (critical_nonempty rest Hrest).
        rewrite Hg'p in Hcount. destruct rest; [contradiction|].
        cbn [b2n negb] in *. lia.
Qed.

Lemma exec_invariant (schedule : list nat) (s s' : system) :
  invariant s -> exec s schedule = Some s' -> invariant s'.
Proof.
  revert s. induction schedule as [|i later IH]; intros s Hinv Hexec.
  - injection Hexec as <-. exact Hinv.
  - cbn [exec] in Hexec. destruct (step s i) as [s1|] eqn:Hstep; [|discriminate].
    exact (IH s1 (step_invariant s s1 i Hinv Hstep) Hexec).
Qed.

Lemma start_invariant (c : producer) (calls : list call) : invariant (start c calls).
Proof.
  unfold invariant, start. cbn [goroutines locked b2n]. split.
  - induction calls as [|k calls IH]; cbn [map]; constructor; [|exact IH].
    unfold shaped. cbn [performed pending]. apply events_of_shape.
  - unfold busy. induction calls as [|k calls IH]; [reflexivity|].
    cbn [map List.filter in_progress performed]. exact IH.
Qed.

Lemma busy_one (l : list goroutine) (i : nat) (g : goroutine) :
  l !! i = Some g -> in_progress g = true -> (1 <= busy l)%nat.
Proof.
  revert i. induction l as [|h l IH]; intros i Hi Hg; [discriminate|].
  unfold busy in *. cbn [List.filter]. destruct i as [|i].
  - injection Hi as ->. rewrite Hg. cbn [length]. lia.
  - specialize (IH i Hi Hg). destruct (in_progress h); cbn [length]; lia.
Qed.

Lemma busy_two (l : list goroutine) (i j : nat) (gi gj : goroutine) :
  l !! i = Some gi -> l !! j = Some gj -> i <> j ->
  in_progress gi = true -> in_progress gj = true -> (2 <= busy l)%nat.
Proof.
  revert i j. induction l as [|h l IH]; intros i j Hi Hj Hne Pi Pj; [discriminate|].
  unfold busy in *. cbn [List.filter].
  destruct i as [|i], j as [|j]; [contradiction | | | ].
  - injection Hi as ->. rewrite Pi. cbn [length].
    pose proof (busy_one l j gj Hj Pj) as H1. unfold busy in H1. lia.
  - injection Hj as ->. rewrite Pj. cbn [length].
    pose proof (busy_one l i gi Hi Pi) as H1. unfold busy in H1. lia.
  - assert (Hne' : i <> j) by congruence.
    specialize (IH i j Hi Hj Hne' Pi Pj).
    destruct (in_progress h); cbn [length]; lia.
Qed.

(** C8. Whatever calls of [NewUser] and [DeleteUser] run side by side on
    one producer, and however their goroutines are scheduled, the mutex lets
    at most one call be in progress at any time; a goroutine about to send
    its POST is in progress, so no other call is while the exchange is
    made. *)
Theorem one_call_at_a_time (c : producer) (calls : list call)
    (schedule : list nat) (s : system) :
  exec (start c calls) schedule = Some s ->
  (busy (goroutines s) <= 1)%nat /\
  (forall i j gi gj,
      goroutines s !! i = Some gi -> goroutines s !! j = Some gj ->
      in_progress gi = true -> in_progress gj = true -> i = j) /\
  (forall i g url contentType body rest,
      goroutines s !! i = Some g ->
      pending g = EvPost url contentType body :: rest ->
      in_progress g = true).
Proof.
  intros Hexec.
  destruct (exec_invariant schedule _ s (start_invariant c calls) Hexec)
    as [Hshape Hbusy].
  assert (Hle : (busy (goroutines s) <= 1)%nat).
  { rewrite Hbusy. destruct (locked s); cbn [b2n]; lia. }
  split; [exact Hle|]. split.
  - intros i j gi gj Hi Hj Pi Pj.
    destruct (Nat.eq_dec i j) as [E|Hne]; [exact E|].
    pose proof (busy_two (goroutines s) i j gi gj Hi Hj Hne Pi Pj). lia.
  - intros i g url ct b rest Hi Hp.
    pose proof (Forall_lookup_1 _ _ _ _ Hshape Hi) as Hg.
    unfold shaped in Hg. unfold in_progress. rewrite Hp in *.
    destruct (performed g); [|reflexivity].
    destruct Hg as (t & E & _). discriminate E.
Qed.

Lemma one_call_at_a_time_witness :
  exists s,
    exec (start Sample.c0
            [CallNewUser (Sample.world "tok" (Sample.http 200 Sample.body_ok))
               {| NewUser_Commands := [Sample.stmt_no_priv]; NewUser_Password := "pw" |};
             CallDeleteUser (Sample.world "tok" (Sample.http 200 Sample.body_ok))
               {| DeleteUser_Username := "BOB_r";
                  DeleteUser_Commands := [Sample.stmt_no_priv] |}])
         [0%nat; 0%nat] = Some s /\
    (busy (goroutines s) <= 1)%nat.
Proof.
  eexists. split; [vm_compute; reflexivity|].
  eapply (one_call_at_a_time Sample.c0
            [CallNewUser (Sample.world "tok" (Sample.http 200 Sample.body_ok))
               {| NewUser_Commands := [Sample.stmt_no_priv]; NewUser_Password := "pw" |};
             CallDeleteUser (Sample.world "tok" (Sample.http 200 Sample.body_ok))
               {| DeleteUser_Username := "BOB_r";
                  DeleteUser_Commands := [Sample.stmt_no_priv] |}]
            [0%nat; 0%nat]).
  vm_compute. reflexivity.
Defined.

(** While one call holds the mutex, the other's [Lock] does not go through:
    the schedule that would start it is not one the system can follow. *)
Example second_call_waits :
  exec (start Sample.c0
          [CallNewUser (Sample.world "tok" (Sample.http 200 Sample.body_ok))
             {| NewUser_Commands := [Sample.stmt_no_priv]; NewUser_Password := "pw" |};
           CallDeleteUser (Sample.world "tok" (Sample.http 200 Sample.body_ok))
             {| DeleteUser_Username := "BOB_r";
                DeleteUser_Commands := [Sample.stmt_no_priv] |}])
       [0%nat; 0%nat; 1%nat] = None.
Proof. vm_compute. reflexivity. Qed.

(** C9, with the map shared.  After a successful [Initialize] the
    producer's connection URL is the value of [vault_mysql_db], whatever the
    configuration and whatever the decoder wrote from it.  The configuration
    in the response is the map that was supplied, as the decoder left it:
    [Init] makes [c.RawConfig] that very map before decoding into [c], so
    what the decoder writes for the field [RawConfig] lands in the caller's
    map, and the map comes back holding more than was supplied. *)
Theorem Initialize_returns_the_shared_config (w : World) (c : producer)
    (req : InitializeRequest) (resp : InitializeResponse) (st : state) :
  run (Initialize w req) c = (Ret resp, st) ->
  ConnectionURL (conn st) = Getenv w vaultMysqlDb /\
  Initialized (conn st) = true /\
  resp_Config resp
  = ConfigAfterDecode w (Config req) (set_RawConfig (Config req) c).
Proof.
  unfold run, Initialize, producer_Initialize, Init, initHttpConnPool, withLock,
    attempt, update, bind, self, store, fail, ret.
  cbn [conn trace]. intros H.
  destruct (NewDecoder w) as [e|]; cbn [conn trace] in H; [discriminate H|].
  destruct (Decode w (Config req) (set_RawConfig (Config req) c)) as [c' [e|]];
    cbn [conn trace] in H; [discriminate H|].
  injection H as <- <-. cbn. auto.
Qed.

Lemma Initialize_returns_the_shared_config_witness :
  ConnectionURL
    (conn (snd (run (Initialize
                       (Faulty.world "tok" (Sample.http 200 Sample.body_ok)
                          None Faulty.decode30)
                       {| Config := Some {[ "rawconfig" :=
                                              VMap {[ "extra" := VString "x" ]} ]};
                          VerifyConnection := true |})
                  new)))
  = "http://db.example/api" /\
  Initialized
    (conn (snd (run (Initialize
                       (Faulty.world "tok" (Sample.http 200 Sample.body_ok)
                          None Faulty.decode30)
                       {| Config := Some {[ "rawconfig" :=
                                              VMap {[ "extra" := VString "x" ]} ]};
                          VerifyConnection := true |})
                  new)))
  = true /\
  resp_Config
    {| resp_Config :=
         Some (<[ "extra" := VString "x" ]>
                 {[ "rawconfig" := VMap {[ "extra" := VString "x" ]} ]}) |}
  = Faulty.written (Some {[ "rawconfig" := VMap {[ "extra" := VString "x" ]} ]}).
Proof.
  apply (Initialize_returns_the_shared_config
           (Faulty.world "tok" (Sample.http 200 Sample.body_ok) None Faulty.decode30)
           new
           {| Config := Some {[ "rawconfig" := VMap {[ "extra" := VString "x" ]} ]};
              VerifyConnection := true |}).
  vm_compute. reflexivity.
Defined.

(** A configuration of one key comes back with two. *)
Example config_comes_back_changed :
  fst (run (Initialize
              (Faulty.world "tok" (Sample.http 200 Sample.body_ok) None Faulty.decode30)
              {| Config := Some {[ "rawconfig" := VMap {[ "extra" := VString "x" ]} ]};
                 VerifyConnection := true |})
         new)
  = Ret {| resp_Config :=
             Some (<[ "extra" := VString "x" ]>
                     {[ "rawconfig" := VMap {[ "extra" := VString "x" ]} ]}) |} /\
  size (<[ "extra" := VString "x" ]>
          ({[ "rawconfig" := VMap {[ "extra" := VString "x" ]} ]} : gmap string value))
  = 2%nat.
Proof. split; vm_compute; reflexivity. Qed.

(** C10. A [DeleteUser] given several statements passes the check on
    their number and behaves exactly as the same call given the first one
    alone; when that first statement decodes to an object, the request it
    posts is that object with [action], [token] and [username] laid over
    it. *)
Theorem DeleteUser_reads_first_statement_only (w : World) (c : producer)
    (username stmt : string) (rest : list string) :
  run (DeleteUser w {| DeleteUser_Username := username;
                       DeleteUser_Commands := stmt :: rest |}) c
  = run (DeleteUser w {| DeleteUser_Username := username;
                         DeleteUser_Commands := [stmt] |}) c /\
  (forall g b,
      Unmarshal w stmt = inr (Some g) ->
      Marshal w (Some (<["username" := VString username]>
                         (<["token" := VString (Getenv w mysqlToken)]>
                            (<["action" := VString delUser]> g)))) = inr b ->
      network_calls
        (trace (snd (run (DeleteUser w {| DeleteUser_Username := username;
                                          DeleteUser_Commands := stmt :: rest |}) c)))
      = [EvPost (ConnectionURL c) "application/json" b]).
Proof.
  split; [reflexivity|].
  intros g b Hdec Hmar.
  rewrite (DeleteUser_reaches_post w
             {| DeleteUser_Username := username; DeleteUser_Commands := stmt :: rest |}
             c stmt rest g b eq_refl Hdec Hmar).
  reflexivity.
Qed.

Lemma DeleteUser_reads_first_statement_only_witness :
  run (DeleteUser (Sample.world "tok" (Sample.http 200 Sample.body_ok))
         {| DeleteUser_Username := "BOB_r";
            DeleteUser_Commands := [Sample.stmt_no_priv; "not json"; Sample.stmt_priv_1] |})
      Sample.c0
  = run (DeleteUser (Sample.world "tok" (Sample.http 200 Sample.body_ok))
           {| DeleteUser_Username := "BOB_r";
              DeleteUser_Commands := [Sample.stmt_no_priv] |})
        Sample.c0 /\
  network_calls
    (trace (snd (run (DeleteUser (Sample.world "tok" (Sample.http 200 Sample.body_ok))
                        {| DeleteUser_Username := "BOB_r";
                           DeleteUser_Commands :=
                             [Sample.stmt_no_priv; "not json"; Sample.stmt_priv_1] |})
                   Sample.c0)))
  = [EvPost "http://db.example/api" "application/json"
       "VaultDelUser token=tok username=BOB_r"].
Proof.
  destruct (DeleteUser_reads_first_statement_only
              (Sample.world "tok" (Sample.http 200 Sample.body_ok)) Sample.c0
              "BOB_r" Sample.stmt_no_priv ["not json"; Sample.stmt_priv_1]) as [Heq Hpost].
  split; [exact Heq|].
  apply (Hpost ∅); reflexivity.
Defined.

(** * Further properties of the code *)

(** X1. [UpdateUser] does nothing and returns no error, with or without a
    new password; it does not touch the lock. *)
Theorem UpdateUser_is_a_no_op (req : UpdateUserRequest) (c : producer) :
  run (UpdateUser req) c = (Ret Build_UpdateUserResponse, {| conn := c; trace := [] |}).
Proof. unfold run, UpdateUser. destruct (UpdateUser_Password req); reflexivity. Qed.

(** X2. The suffix of a successful [NewUser], by what [priv] decoded to:
    [_r] when the key is absent, null or the string "0"; [_rw] for a
    boolean, a number other than zero, any other string, an array or an
    object. *)
Theorem suffix_by_priv (w : World) (c : producer) (req : NewUserRequest)
    (stmt : string) (g : gmap string value)
    (resp : NewUserResponse) (st : state) :
  NewUser_Commands req = [stmt] ->
  Unmarshal w stmt = inr (Some g) ->
  run (NewUser w req) c = (Ret resp, st) ->
  match g !! "priv" with
  | None | Some VNil => hasSuffix "_r" (Username resp) = true
  | Some (VString s) =>
      if String.eqb s "0" then hasSuffix "_r" (Username resp) = true
      else hasSuffix "_rw" (Username resp) = true
  | Some (VInt n) =>
      if n =? 0 then hasSuffix "_r" (Username resp) = true
      else hasSuffix "_rw" (Username resp) = true
  | Some (VFloat64 f) =>
      SFeqb f (S754_zero false) = false -> hasSuffix "_rw" (Username resp) = true
  | Some _ => hasSuffix "_rw" (Username resp) = true
  end.
Proof.
  intros Hcmd Hdec Hrun.
  destruct (NewUser_returns w req c resp st Hrun)
    as (stmt' & g' & b & Hcmd' & Hdec' & _ & Hname & _).
  rewrite Hcmd in Hcmd'. injection Hcmd' as <-.
  rewrite Hdec in Hdec'. injection Hdec' as <-.
  rewrite Hname. unfold NewUser_username, index.
  set (pre := ToUpper w _).
  assert (Hr : hasSuffix "_r" (pre +:+ "_" +:+ "r") = true)
    by apply (hasSuffix_append pre "_r").
  assert (Hrw : hasSuffix "_rw" (pre +:+ "_" +:+ "rw") = true)
    by apply (hasSuffix_append pre "_rw").
  destruct (g !! "priv") as [v|]; cbn [default from_option id privileged];
    [|exact Hr].
  destruct v; cbn [privileged negb]; try assumption.
  - destruct (n =? 0); assumption.
  - intros _. assumption.
  - destruct (String.eqb s "0"); assumption.
Qed.

Lemma suffix_by_priv_witness :
  hasSuffix "_r" "V_AB3DE5GH7JK_r" = true.
Proof.
  exact (suffix_by_priv
           (Sample.world "tok" (Sample.http 200 Sample.body_ok)) Sample.c0
           {| NewUser_Commands := [Sample.stmt_priv_s0]; NewUser_Password := "pw" |}
           Sample.stmt_priv_s0 {[ "priv" := VString "0" ]}
           {| Username := "V_AB3DE5GH7JK_r" |}
           {| conn := Sample.c0;
              trace := [EvLock;
                        EvLog "request db create user body:"
                          "AddUser token=tok username=V_AB3DE5GH7JK_r";
                        EvPost "http://db.example/api" "application/json"
                          "AddUser token=tok username=V_AB3DE5GH7JK_r";
                        EvUnlock] |}
           eq_refl eq_refl eq_refl).
Defined.

(** X3. The object a [NewUser] posts: [action] is [AddUser], [password] the
    request's, [token] the environment's, [username] the suffixed name, and
    every other key is as the create-statement gave it. *)
Theorem NewUser_request_fields (w : World) (c : producer) (req : NewUserRequest)
    (url contentType b : string) :
  In (EvPost url contentType b) (trace (snd (run (NewUser w req) c))) ->
  exists stmt g body,
    NewUser_Commands req = [stmt] /\
    Unmarshal w stmt = inr (Some g) /\
    Marshal w (Some body) = inr b /\
    url = ConnectionURL c /\
    contentType = "application/json" /\
    body !! "action" = Some (VString addUser) /\
    body !! "password" = Some (VString (NewUser_Password req)) /\
    body !! "token" = Some (VString (Getenv w mysqlToken)) /\
    body !! "username" = Some (VString (NewUser_username w (Some g))) /\
    (forall k, k <> "action" -> k <> "password" -> k <> "token" -> k <> "username" ->
               body !! k = g !! k).
Proof.
  intros Hin.
  destruct (NewUser_cases w req c)
    as [(stmt & g & b' & Hgen & Htok & Hcmd & Hdec & Hmar) | (out & Hrun & _)].
  - rewrite (NewUser_reaches_post w req c stmt g b' Hgen Htok Hcmd Hdec Hmar) in Hin.
    cbn [snd trace] in Hin.
    destruct Hin as [E | [E | [E | [E | []]]]]; try discriminate E.
    injection E as <- <- <-.
    exists stmt, g, (NewUser_body w req g).
    repeat split; try assumption; unfold NewUser_body.
    + rewrite lookup_insert_ne by discriminate. apply lookup_insert_eq.
    + do 2 (rewrite lookup_insert_ne by discriminate). apply lookup_insert_eq.
    + apply lookup_insert_eq.
    + do 3 (rewrite lookup_insert_ne by discriminate). apply lookup_insert_eq.
    + intros k H1 H2 H3 H4.
      rewrite !lookup_insert_ne by congruence. reflexivity.
  - rewrite Hrun in Hin. cbn [snd trace] in Hin.
    destruct Hin as [E | [E | []]]; discriminate E.
Qed.

Lemma NewUser_request_fields_witness :
  exists stmt g body,
    [Sample.stmt_priv_1] = [stmt] /\
    Sample.unmarshal stmt = inr (Some g) /\
    Sample.marshal (Some body) = inr "AddUser token=tok username=V_AB3DE5GH7JK_rw" /\
    "http://db.example/api" = "http://db.example/api" /\
    "application/json" = "application/json" /\
    body !! "action" = Some (VString addUser) /\
    body !! "password" = Some (VString "pw") /\
    body !! "token" = Some (VString "tok") /\
    body !! "username"
    = Some (VString (NewUser_username
                       (Sample.world "tok" (Sample.http 200 Sample.body_ok)) (Some g))) /\
    (forall k, k <> "action" -> k <> "password" -> k <> "token" -> k <> "username" ->
               body !! k = g !! k).
Proof.
  apply (NewUser_request_fields
           (Sample.world "tok" (Sample.http 200 Sample.body_ok)) Sample.c0
           {| NewUser_Commands := [Sample.stmt_priv_1]; NewUser_Password := "pw" |}
           "http://db.example/api" "application/json"
           "AddUser token=tok username=V_AB3DE5GH7JK_rw").
  vm_compute. right. right. left. reflexivity.
Defined.

(** X4. [NewUser] and [DeleteUser] leave the producer as they found it: the
    lock apart, the calls share nothing they change. *)
Theorem calls_leave_producer_unchanged (w : World) (c : producer)
    (req : NewUserRequest) (dreq : DeleteUserRequest) :
  conn (snd (run (NewUser w req) c)) = c /\
  conn (snd (run (DeleteUser w dreq) c)) = c.
Proof.
  split.
  - destruct (NewUser_cases w req c)
      as [(stmt & g & b & Hgen & Htok & Hcmd & Hdec & Hmar) | (out & Hrun & _)].
    + rewrite (NewUser_reaches_post w req c stmt g b Hgen Htok Hcmd Hdec Hmar).
      reflexivity.
    + rewrite Hrun. reflexivity.
  - destruct (DeleteUser_cases w dreq c)
      as [(stmt & rest & g & b & Hcmd & Hdec & Hmar) | (out & Hrun & _)].
    + rewrite (DeleteUser_reaches_post w dreq c stmt rest g b Hcmd Hdec Hmar).
      reflexivity.
    + rewrite Hrun. reflexivity.
Qed.

(** ** The decision trees are the calls *)

Lemma NewUser_run_view (w : World) (req : NewUserRequest) (c : producer) :
  run (NewUser w req) c = NewUser_view w req c.
Proof.
  unfold NewUser_view, early.
  destruct (GenerateUsername w) as [name err] eqn:Hg. cbn [snd].
  destruct err as [e|].
  { unfold run, NewUser, withLock. rewrite Hg. reflexivity. }
  destruct (len (Getenv w mysqlToken) =? 0) eqn:Hlen.
  { unfold run, NewUser, withLock. rewrite Hg, Hlen. reflexivity. }
  assert (Htok : Getenv w mysqlToken <> "").
  { intros E. apply len_zero in E. congruence. }
  destruct (NewUser_Commands req) as [|stmt [|s2 rest]] eqn:Hcmd.
  { unfold run, NewUser, withLock. rewrite Hg, Hlen, Hcmd. reflexivity. }
  2:{ unfold run, NewUser, withLock. rewrite Hg, Hlen, Hcmd.
      replace (Z.of_nat (length (stmt :: s2 :: rest)) >? 1) with true; [reflexivity|].
      symmetry. apply Z.gtb_lt. simpl length. lia. }
  destruct (Unmarshal w stmt) as [e|[g|]] eqn:Hdec.
  { unfold run, NewUser, withLock. rewrite Hg, Hlen, Hcmd.
    one_statement stmt. take_first. decoded Hdec. reflexivity. }
  2:{ unfold run, NewUser, withLock. rewrite Hg, Hlen, Hcmd.
      one_statement stmt. take_first. decoded Hdec.
      unfold bind at 1. rewrite priv_test. cbv beta iota.
      unfold bind at 1. unfold assign at 1, panic at 1. cbv beta iota.
      reflexivity. }
  destruct (Marshal w (Some (NewUser_body w req g))) as [e|b] eqn:Hmar.
  2:{ apply (NewUser_reaches_post w req c stmt g b); try assumption.
      rewrite Hg. reflexivity. }
  unfold run, NewUser, withLock. rewrite Hg, Hlen, Hcmd.
  one_statement stmt. take_first. decoded Hdec.
  unfold bind at 1. rewrite priv_test.
  unfold NewUser_body, NewUser_username in Hmar. rewrite Hg in Hmar. cbn [fst] in Hmar.
  unfold httpPost, emit, self, assign, orReturn.
  unfold bind, ret, fail. cbn [conn trace].
  destruct (privileged (index (Some g) "priv")); rewrite Hmar; reflexivity.
Qed.

Lemma DeleteUser_run_view (w : World) (req : DeleteUserRequest) (c : producer) :
  run (DeleteUser w req) c = DeleteUser_view w req c.
Proof.
  unfold DeleteUser_view, early.
  destruct (DeleteUser_Commands req) as [|stmt rest] eqn:Hcmd.
  { unfold run, DeleteUser, withLock. rewrite Hcmd. reflexivity. }
  destruct (Unmarshal w stmt) as [e|[g|]] eqn:Hdec.
  { unfold run, DeleteUser, withLock. rewrite Hcmd.
    some_statement stmt rest. take_first. decoded Hdec. reflexivity. }
  2:{ unfold run, DeleteUser, withLock. rewrite Hcmd.
      some_statement stmt rest. take_first. decoded Hdec.
      unfold bind at 1. unfold assign at 1, panic at 1. cbv beta iota.
      reflexivity. }
  destruct (Marshal w (Some (DeleteUser_body w req g))) as [e|b] eqn:Hmar.
  2:{ apply (DeleteUser_reaches_post w req c stmt rest g b); assumption. }
  unfold run, DeleteUser, withLock. rewrite Hcmd.
  some_statement stmt rest. take_first. decoded Hdec.
  unfold DeleteUser_body in Hmar.
  unfold httpPost, emit, self, assign, orReturn.
  unfold bind, ret, fail. cbn [conn trace]. rewrite Hmar. reflexivity.
Qed.

(** [Initialize], path by path: the producer it leaves is the decoded one
    with its HTTP client rebuilt, and on success the URL of the environment
    and the initialized mark. *)
Lemma Initialize_run (w : World) (req : InitializeRequest) (c : producer) :
  run (Initialize w req) c =
  let c1 := set_RawConfig (Config req) c in
  match NewDecoder w with
  | Some e => (Err e, {| conn := set_httpClient (pool_of c1) c1;
                         trace := [EvLock; EvUnlock] |})
  | None =>
      match snd (Decode w (Config req) c1) with
      | Some e =>
          let c' := fst (Decode w (Config req) c1) in
          (Err e, {| conn := set_httpClient (pool_of c') c';
                     trace := [EvLock; EvUnlock] |})
      | None =>
          let c2 := set_Initialized true
                      (set_ConnectionURL (Getenv w vaultMysqlDb)
                         (fst (Decode w (Config req) c1))) in
          (Ret {| resp_Config := ConfigAfterDecode w (Config req) c1 |},
           {| conn := set_httpClient (pool_of c2) c2; trace := [EvLock; EvUnlock] |})
      end
  end.
Proof.
  unfold run, Initialize, producer_Initialize, Init, initHttpConnPool, withLock,
    attempt, update, bind, self, store, fail, ret, pool_of.
  cbn [conn trace].
  destruct (NewDecoder w) as [e|]; cbn [conn trace app]; [reflexivity|].
  destruct (Decode w (Config req) (set_RawConfig (Config req) c)) as [c' [e|]];
    cbn [conn trace app fst snd]; reflexivity.
Qed.

Lemma wrap64_exact (z : Z) : - 2 ^ 63 <= z < 2 ^ 63 -> wrap64 z = z.
Proof.
  intros H. unfold wrap64. rewrite Z.mod_small; lia.
Qed.

Lemma wrap64_range (z : Z) : - 2 ^ 63 <= wrap64 z < 2 ^ 63.
Proof.
  unfold wrap64. pose proof (Z.mod_pos_bound (z + 2 ^ 63) (2 ^ 64) eq_refl). lia.
Qed.

(** ** More of what the calls do *)

(** X5. The object a [DeleteUser] posts: the first statement's object with
    [action] set to [VaultDelUser], [token] to the environment's and
    [username] to the request's, as given (not cut, upper-cased or
    suffixed); every other key is as the statement gave it. *)
Theorem DeleteUser_request_fields (w : World) (c : producer) (req : DeleteUserRequest)
    (url contentType b : string) :
  In (EvPost url contentType b) (trace (snd (run (DeleteUser w req) c))) ->
  exists stmt rest g body,
    DeleteUser_Commands req = stmt :: rest /\
    Unmarshal w stmt = inr (Some g) /\
    Marshal w (Some body) = inr b /\
    url = ConnectionURL c /\
    contentType = "application/json" /\
    body !! "action" = Some (VString delUser) /\
    body !! "token" = Some (VString (Getenv w mysqlToken)) /\
    body !! "username" = Some (VString (DeleteUser_Username req)) /\
    (forall k, k <> "action" -> k <> "token" -> k <> "username" -> body !! k = g !! k).
Proof.
  rewrite DeleteUser_run_view. unfold DeleteUser_view, early.
  destruct (DeleteUser_Commands req) as [|stmt rest]; cbn [snd trace].
  { intros [E | [E | []]]; discriminate E. }
  destruct (Unmarshal w stmt) as [e|[g|]] eqn:Hdec; cbn [snd trace];
    try (intros [E | [E | []]]; discriminate E).
  destruct (Marshal w (Some (DeleteUser_body w req g))) as [e|b'] eqn:Hmar;
    cbn [snd trace]; [intros [E | [E | []]]; discriminate E|].
  intros [E | [E | [E | []]]]; try discriminate E.
  injection E as <- <- <-.
  exists stmt, rest, g, (DeleteUser_body w req g).
  repeat split; try assumption; unfold DeleteUser_body.
  - do 2 (rewrite lookup_insert_ne by discriminate). apply lookup_insert_eq.
  - rewrite lookup_insert_ne by discriminate. apply lookup_insert_eq.
  - apply lookup_insert_eq.
  - intros k H1 H2 H3. rewrite !lookup_insert_ne by congruence. reflexivity.
Qed.

Lemma DeleteUser_request_fields_witness :
  exists stmt rest g body,
    [Sample.stmt_priv_1; "ignored"] = stmt :: rest /\
    Sample.unmarshal stmt = inr (Some g) /\
    Sample.marshal (Some body) = inr "VaultDelUser token=tok username=bob_r" /\
    "http://db.example/api" = "http://db.example/api" /\
    "application/json" = "application/json" /\
    body !! "action" = Some (VString delUser) /\
    body !! "token" = Some (VString "tok") /\
    body !! "username" = Some (VString "bob_r") /\
    (forall k, k <> "action" -> k <> "token" -> k <> "username" -> body !! k = g !! k).
Proof.
  apply (DeleteUser_request_fields
           (Sample.world "tok" (Sample.http 200 Sample.body_ok)) Sample.c0
           {| DeleteUser_Username := "bob_r";
              DeleteUser_Commands := [Sample.stmt_priv_1; "ignored"] |}
           "http://db.example/api" "application/json"
           "VaultDelUser token=tok username=bob_r").
  vm_compute. right. left. reflexivity.
Defined.

(** X6. Neither call has a retry of its own: on every path, whatever the
    client gives back and however the call ends, it calls the client's [Post]
    at most once.  The requests the client sends inside that one call, a
    redirect followed included, are not counted. *)
Theorem at_most_one_call_of_Post (w : World) (c : producer)
    (req : NewUserRequest) (dreq : DeleteUserRequest) :
  (length (network_calls (trace (snd (run (NewUser w req) c)))) <= 1)%nat /\
  (length (network_calls (trace (snd (run (DeleteUser w dreq) c)))) <= 1)%nat.
Proof.
  rewrite NewUser_run_view, DeleteUser_run_view.
  unfold NewUser_view, DeleteUser_view, early. split.
  - destruct (snd (GenerateUsername w)); [cbn; lia|].
    destruct (len (Getenv w mysqlToken) =? 0); [cbn; lia|].
    destruct (NewUser_Commands req) as [|stmt [|s2 rest]]; try (cbn; lia).
    destruct (Unmarshal w stmt) as [e|[g|]]; try (cbn; lia).
    destruct (Marshal w _); cbn; lia.
  - destruct (DeleteUser_Commands dreq) as [|stmt rest]; [cbn; lia|].
    destruct (Unmarshal w stmt) as [e|[g|]]; try (cbn; lia).
    destruct (Marshal w _); cbn; lia.
Qed.

(** X7. [NewUser] writes to the log the very text it posts, and nothing
    else: that text is the serialized request, which holds the password and
    the token.  [DeleteUser] logs nothing. *)
Theorem NewUser_logs_what_it_posts (w : World) (c : producer)
    (req : NewUserRequest) (dreq : DeleteUserRequest) :
  map text_of (List.filter is_log (trace (snd (run (NewUser w req) c))))
  = map text_of (network_calls (trace (snd (run (NewUser w req) c)))) /\
  (forall msg b,
      In (EvLog msg b) (trace (snd (run (NewUser w req) c))) ->
      exists body,
        Marshal w (Some body) = inr b /\
        body !! "password" = Some (VString (NewUser_Password req)) /\
        body !! "token" = Some (VString (Getenv w mysqlToken))) /\
  List.filter is_log (trace (snd (run (DeleteUser w dreq) c))) = [].
Proof.
  rewrite NewUser_run_view, DeleteUser_run_view.
  unfold NewUser_view, DeleteUser_view, early. split; [|split].
  - destruct (snd (GenerateUsername w)); [reflexivity|].
    destruct (len (Getenv w mysqlToken) =? 0); [reflexivity|].
    destruct (NewUser_Commands req) as [|stmt [|s2 rest]]; try reflexivity.
    destruct (Unmarshal w stmt) as [e|[g|]]; try reflexivity.
    destruct (Marshal w _); reflexivity.
  - intros msg b.
    destruct (snd (GenerateUsername w));
      [cbn [snd trace]; intros [E | [E | []]]; discriminate E|].
    destruct (len (Getenv w mysqlToken) =? 0);
      [cbn [snd trace]; intros [E | [E | []]]; discriminate E|].
    destruct (NewUser_Commands req) as [|stmt [|s2 rest]];
      try (cbn [snd trace]; intros [E | [E | []]]; discriminate E).
    destruct (Unmarshal w stmt) as [e|[g|]];
      try (cbn [snd trace]; intros [E | [E | []]]; discriminate E).
    destruct (Marshal w (Some (NewUser_body w req g))) as [e|b'] eqn:Hmar;
      [cbn [snd trace]; intros [E | [E | []]]; discriminate E|].
    cbn [snd trace]. intros [E | [E | [E | [E | []]]]]; try discriminate E.
    injection E as _ <-.
    exists (NewUser_body w req g). split; [exact Hmar|]. unfold NewUser_body. split.
    + do 2 (rewrite lookup_insert_ne by discriminate). apply lookup_insert_eq.
    + apply lookup_insert_eq.
  - destruct (DeleteUser_Commands dreq) as [|stmt rest]; [reflexivity|].
    destruct (Unmarshal w stmt) as [e|[g|]]; try reflexivity.
    destruct (Marshal w _); reflexivity.
Qed.

(** X8. Every path of [NewUser] and of [DeleteUser] takes the producer's
    lock first and releases it last, once each, an error return or a panic
    included: neither call ends holding the lock, and its log line and its
    call of [Post] lie between the two. *)
Theorem lock_released_on_every_path (w : World) (c : producer)
    (req : NewUserRequest) (dreq : DeleteUserRequest) :
  (exists t, trace (snd (run (NewUser w req) c)) = EvLock :: t /\ critical t) /\
  (exists t, trace (snd (run (DeleteUser w dreq) c)) = EvLock :: t /\ critical t).
Proof.
  assert (Hnone : critical [EvUnlock]).
  { exists []. split; [reflexivity | constructor]. }
  rewrite NewUser_run_view, DeleteUser_run_view.
  unfold NewUser_view, DeleteUser_view, early. split.
  - destruct (snd (GenerateUsername w)); [cbn; eauto|].
    destruct (len (Getenv w mysqlToken) =? 0); [cbn; eauto|].
    destruct (NewUser_Commands req) as [|stmt [|s2 rest]]; try (cbn; eauto).
    destruct (Unmarshal w stmt) as [e|[g|]]; try (cbn; eauto).
    destruct (Marshal w _) as [e|b]; [cbn; eauto|].
    cbn [snd trace]. eexists. split; [reflexivity|].
    exists [EvLog "request db create user body:" b;
            EvPost (ConnectionURL c) "application/json" b].
    split; [reflexivity | repeat constructor].
  - destruct (DeleteUser_Commands dreq) as [|stmt rest]; [cbn; eauto|].
    destruct (Unmarshal w stmt) as [e|[g|]]; try (cbn; eauto).
    destruct (Marshal w _) as [e|b]; [cbn; eauto|].
    cbn [snd trace]. eexists. split; [reflexivity|].
    exists [EvPost (ConnectionURL c) "application/json" b].
    split; [reflexivity | repeat constructor].
Qed.

Lemma read_status_Ret {A} (w : World) (heading : string -> error) (ok r : A)
    (result : gomap) :
  read_status w heading ok result = Ret r ->
  exists g f, result = Some g /\ g !! "status" = Some (VFloat64 f) /\
              SFeqb f (S754_zero false) = true.
Proof.
  unfold read_status, index. intros H.
  destruct result as [g|]; [|discriminate H].
  destruct (g !! "status") as [v|] eqn:E; cbn [default from_option id] in H;
    [|discriminate H].
  destruct v; try discriminate H.
  destruct (SFeqb f (S754_zero false)) eqn:Ef; [|discriminate H].
  eauto.
Qed.

(** X9. Neither call reports success on its own: a nil error means that one
    POST was made and was answered with status code 200 and a body that
    decodes to an object whose [status] is the number zero. *)
Theorem success_means_remote_confirmed (w : World) (c : producer)
    (req : NewUserRequest) (dreq : DeleteUserRequest) :
  (forall resp st,
      run (NewUser w req) c = (Ret resp, st) ->
      exists response body g f,
        answered w c (trace st) response /\
        StatusCode response = 200 /\
        ReadAll response = inr body /\
        Unmarshal w body = inr (Some g) /\
        g !! "status" = Some (VFloat64 f) /\
        SFeqb f (S754_zero false) = true) /\
  (forall resp st,
      run (DeleteUser w dreq) c = (Ret resp, st) ->
      exists response body g f,
        answered w c (trace st) response /\
        StatusCode response = 200 /\
        ReadAll response = inr body /\
        Unmarshal w body = inr (Some g) /\
        g !! "status" = Some (VFloat64 f) /\
        SFeqb f (S754_zero false) = true).
Proof.
  split; intros resp st.
  - rewrite NewUser_run_view. unfold NewUser_view, early.
    destruct (snd (GenerateUsername w)); [discriminate|].
    destruct (len (Getenv w mysqlToken) =? 0); [discriminate|].
    destruct (NewUser_Commands req) as [|stmt [|s2 rest]]; try discriminate.
    destruct (Unmarshal w stmt) as [e|[g|]]; try discriminate.
    destruct (Marshal w _) as [e|b]; [discriminate|].
    intros H. injection H as Hans <-. unfold NewUser_answer in Hans.
    destruct (Post w _ _ _ _) as [e|response] eqn:Hpost; [discriminate Hans|].
    destruct (StatusCode response =? 200) eqn:Hcode; [|discriminate Hans].
    destruct (ReadAll response) as [e|body] eqn:Hread; [discriminate Hans|].
    destruct (Unmarshal w body) as [e|result] eqn:Hdec; [discriminate Hans|].
    destruct (read_status_Ret _ _ _ _ _ Hans) as (g' & f & -> & Hs & Hz).
    exists response, body, g', f. repeat split; try assumption.
    + eexists _, _, _. split; [|exact Hpost]. cbn [trace]. right. right. left. reflexivity.
    + apply Z.eqb_eq. exact Hcode.
  - rewrite DeleteUser_run_view. unfold DeleteUser_view, early.
    destruct (DeleteUser_Commands dreq) as [|stmt rest]; [discriminate|].
    destruct (Unmarshal w stmt) as [e|[g|]]; try discriminate.
    destruct (Marshal w _) as [e|b]; [discriminate|].
    intros H. injection H as Hans <-. unfold DeleteUser_answer in Hans.
    destruct (Post w _ _ _ _) as [e|response] eqn:Hpost; [discriminate Hans|].
    destruct (StatusCode response =? 200) eqn:Hcode; [|discriminate Hans].
    destruct (ReadAll response) as [e|body] eqn:Hread; [discriminate Hans|].
    destruct (Unmarshal w body) as [e|result] eqn:Hdec; [discriminate Hans|].
    destruct (read_status_Ret _ _ _ _ _ Hans) as (g' & f & -> & Hs & Hz).
    exists response, body, g', f. repeat split; try assumption.
    + eexists _, _, _. split; [|exact Hpost]. cbn [trace]. right. left. reflexivity.
    + apply Z.eqb_eq. exact Hcode.
Qed.

Lemma success_means_remote_confirmed_witness :
  (exists response body g f,
      answered (Sample.world "tok" (Sample.http 200 Sample.body_ok)) Sample.c0
        [EvLock;
         EvLog "request db create user body:" "AddUser token=tok username=V_AB3DE5GH7JK_r";
         EvPost "http://db.example/api" "application/json"
           "AddUser token=tok username=V_AB3DE5GH7JK_r";
         EvUnlock] response /\
      StatusCode response = 200 /\
      ReadAll response = inr body /\
      Sample.unmarshal body = inr (Some g) /\
      g !! "status" = Some (VFloat64 f) /\
      SFeqb f (S754_zero false) = true) /\
  (exists response body g f,
      answered (Sample.world "tok" (Sample.http 200 Sample.body_ok)) Sample.c0
        [EvLock;
         EvPost "http://db.example/api" "application/json"
           "VaultDelUser token=tok username=BOB_r";
         EvUnlock] response /\
      StatusCode response = 200 /\
      ReadAll response = inr body /\
      Sample.unmarshal body = inr (Some g) /\
      g !! "status" = Some (VFloat64 f) /\
      SFeqb f (S754_zero false) = true).
Proof.
  destruct (success_means_remote_confirmed
              (Sample.world "tok" (Sample.http 200 Sample.body_ok)) Sample.c0
              {| NewUser_Commands := [Sample.stmt_no_priv]; NewUser_Password := "pw" |}
              {| DeleteUser_Username := "BOB_r";
                 DeleteUser_Commands := [Sample.stmt_no_priv] |}) as [HN HD].
  split.
  - exact (HN {| Username := "V_AB3DE5GH7JK_r" |}
             {| conn := Sample.c0;
                trace := [EvLock;
                          EvLog "request db create user body:"
                            "AddUser token=tok username=V_AB3DE5GH7JK_r";
                          EvPost "http://db.example/api" "application/json"
                            "AddUser token=tok username=V_AB3DE5GH7JK_r";
                          EvUnlock] |} eq_refl).
  - exact (HD Build_DeleteUserResponse
             {| conn := Sample.c0;
                trace := [EvLock;
                          EvPost "http://db.example/api" "application/json"
                            "VaultDelUser token=tok username=BOB_r";
                          EvUnlock] |} eq_refl).
Defined.

(** X10. A statement that decodes to the nil map (the JSON text [null])
    makes the call panic on its first write into the map, before any
    exchange: [NewUser] once the generator, the token and the statement count
    have passed, [DeleteUser] whenever it is the first statement. *)
Theorem nil_statement_panics (w : World) (c : producer)
    (req : NewUserRequest) (dreq : DeleteUserRequest) (stmt : string) :
  Unmarshal w stmt = inr None ->
  (snd (GenerateUsername w) = None ->
   Getenv w mysqlToken <> "" ->
   NewUser_Commands req = [stmt] ->
   run (NewUser w req) c = (Panic "assignment to entry in nil map", early c)) /\
  (forall rest,
      DeleteUser_Commands dreq = stmt :: rest ->
      run (DeleteUser w dreq) c = (Panic "assignment to entry in nil map", early c)).
Proof.
  intros Hdec. split.
  - intros Hgen Htok Hcmd. rewrite NewUser_run_view. unfold NewUser_view.
    rewrite Hgen, Hcmd, Hdec.
    destruct (len (Getenv w mysqlToken) =? 0) eqn:E; [|reflexivity].
    apply len_zero in E. contradiction.
  - intros rest Hcmd. rewrite DeleteUser_run_view. unfold DeleteUser_view.
    rewrite Hcmd, Hdec. reflexivity.
Qed.

Lemma nil_statement_panics_witness :
  run (NewUser (Faulty.world "tok" (Sample.http 200 Sample.body_ok) None Faulty.decode30)
         {| NewUser_Commands := ["null"]; NewUser_Password := "pw" |})
      Sample.c0
  = (Panic "assignment to entry in nil map", early Sample.c0) /\
  run (DeleteUser (Faulty.world "tok" (Sample.http 200 Sample.body_ok) None Faulty.decode30)
         {| DeleteUser_Username := "BOB_r"; DeleteUser_Commands := ["null"; "{}"] |})
      Sample.c0
  = (Panic "assignment to entry in nil map", early Sample.c0).
Proof.
  destruct (nil_statement_panics
              (Faulty.world "tok" (Sample.http 200 Sample.body_ok) None Faulty.decode30)
              Sample.c0
              {| NewUser_Commands := ["null"]; NewUser_Password := "pw" |}
              {| DeleteUser_Username := "BOB_r"; DeleteUser_Commands := ["null"; "{}"] |}
              "null" eq_refl) as [HN HD].
  split.
  - apply HN; [reflexivity | discriminate | reflexivity].
  - apply (HD ["{}"]). reflexivity.
Defined.

(** X11. The only panics of the two calls: the write into a nil map when the
    statement decoded to one (no exchange was made), and the type assertion
    on [status] after a 200 answer whose decoded body has no float64 there. *)
Theorem panic_causes (w : World) (c : producer)
    (req : NewUserRequest) (dreq : DeleteUserRequest) :
  (forall msg,
      fst (run (NewUser w req) c) = Panic msg ->
      (exists stmt, NewUser_Commands req = [stmt] /\ Unmarshal w stmt = inr None /\
                    network_calls (trace (snd (run (NewUser w req) c))) = []) \/
      (exists response body result,
          answered w c (trace (snd (run (NewUser w req) c))) response /\
          StatusCode response = 200 /\
          ReadAll response = inr body /\
          Unmarshal w body = inr result /\
          forall f, index result "status" <> VFloat64 f)) /\
  (forall msg,
      fst (run (DeleteUser w dreq) c) = Panic msg ->
      (exists stmt rest, DeleteUser_Commands dreq = stmt :: rest /\
                         Unmarshal w stmt = inr None /\
                         network_calls (trace (snd (run (DeleteUser w dreq) c))) = []) \/
      (exists response body result,
          answered w c (trace (snd (run (DeleteUser w dreq) c))) response /\
          StatusCode response = 200 /\
          ReadAll response = inr body /\
          Unmarshal w body = inr result /\
          forall f, index result "status" <> VFloat64 f)).
Proof.
  assert (Hstatus : forall A (heading : string -> error) (ok : A) result msg,
             read_status w heading ok result = Panic msg ->
             forall f, index result "status" <> VFloat64 f).
  { intros A heading ok result msg H f E. unfold read_status in H. rewrite E in H.
    destruct (SFeqb f (S754_zero false)); discriminate H. }
  split; intros msg.
  - rewrite NewUser_run_view. unfold NewUser_view, early.
    destruct (snd (GenerateUsername w)); [discriminate|].
    destruct (len (Getenv w mysqlToken) =? 0); [discriminate|].
    destruct (NewUser_Commands req) as [|stmt [|s2 rest]]; try discriminate.
    destruct (Unmarshal w stmt) as [e|[g|]] eqn:Hs; try discriminate.
    2:{ intros _. left. exists stmt. auto. }
    destruct (Marshal w _) as [e|b]; [discriminate|].
    cbn [fst snd trace]. unfold NewUser_answer. intros Hans. right.
    destruct (Post w _ _ _ _) as [e|response] eqn:Hpost; [discriminate Hans|].
    destruct (StatusCode response =? 200) eqn:Hcode; [|discriminate Hans].
    destruct (ReadAll response) as [e|body] eqn:Hread; [discriminate Hans|].
    destruct (Unmarshal w body) as [e|result] eqn:Hdec; [discriminate Hans|].
    exists response, body, result. repeat split; try assumption.
    + eexists _, _, _. split; [|exact Hpost]. right. right. left. reflexivity.
    + apply Z.eqb_eq. exact Hcode.
    + exact (Hstatus _ _ _ _ _ Hans).
  - rewrite DeleteUser_run_view. unfold DeleteUser_view, early.
    destruct (DeleteUser_Commands dreq) as [|stmt rest]; [discriminate|].
    destruct (Unmarshal w stmt) as [e|[g|]] eqn:Hs; try discriminate.
    2:{ intros _. left. exists stmt, rest. auto. }
    destruct (Marshal w _) as [e|b]; [discriminate|].
    cbn [fst snd trace]. unfold DeleteUser_answer. intros Hans. right.
    destruct (Post w _ _ _ _) as [e|response] eqn:Hpost; [discriminate Hans|].
    destruct (StatusCode response =? 200) eqn:Hcode; [|discriminate Hans].
    destruct (ReadAll response) as [e|body] eqn:Hread; [discriminate Hans|].
    destruct (Unmarshal w body) as [e|result] eqn:Hdec; [discriminate Hans|].
    exists response, body, result. repeat split; try assumption.
    + eexists _, _, _. split; [|exact Hpost]. right. left. reflexivity.
    + apply Z.eqb_eq. exact Hcode.
    + exact (Hstatus _ _ _ _ _ Hans).
Qed.

Lemma panic_causes_witness :
  (exists stmt, ["null"] = [stmt] /\ Faulty.unmarshal stmt = inr None /\
                network_calls
                  (trace (snd (run (NewUser
                                      (Faulty.world "tok" (Sample.http 200 Sample.body_ok)
                                         None Faulty.decode30)
                                      {| NewUser_Commands := ["null"];
                                         NewUser_Password := "pw" |})
                                 Sample.c0))) = []) \/
  (exists response body result,
      answered (Faulty.world "tok" (Sample.http 200 Sample.body_ok) None Faulty.decode30)
        Sample.c0
        (trace (snd (run (NewUser
                            (Faulty.world "tok" (Sample.http 200 Sample.body_ok)
                               None Faulty.decode30)
                            {| NewUser_Commands := ["null"]; NewUser_Password := "pw" |})
                       Sample.c0))) response /\
      StatusCode response = 200 /\
      ReadAll response = inr body /\
      Faulty.unmarshal body = inr result /\
      forall f, index result "status" <> VFloat64 f).
Proof.
  exact (proj1 (panic_causes
                  (Faulty.world "tok" (Sample.http 200 Sample.body_ok) None Faulty.decode30)
                  Sample.c0
                  {| NewUser_Commands := ["null"]; NewUser_Password := "pw" |}
                  {| DeleteUser_Username := "BOB_r"; DeleteUser_Commands := ["null"] |})
               "assignment to entry in nil map" eq_refl).
Defined.

(** X12. What becomes of a failed exchange.  A transport error comes back
    under "invoke db create user: <username> failed: " from [NewUser] and as
    it is from [DeleteUser]; an error reading the body of a 200 answer, or
    decoding it, comes back under "invoke db create user:<username> failed: "
    and under "delete user failed: ". *)
Theorem exchange_errors (w : World) (c : producer)
    (req : NewUserRequest) (dreq : DeleteUserRequest) (e : error) :
  (forall url contentType b,
      In (EvPost url contentType b) (trace (snd (run (NewUser w req) c))) ->
      exists suffix username,
        (suffix = "r" \/ suffix = "rw") /\
        username = ToUpper w (nameTrunc (fst (GenerateUsername w)) maxKeyLength)
                   +:+ "_" +:+ suffix /\
        match Post w (httpClient c) url contentType b with
        | inl e' =>
            fst (run (NewUser w req) c)
            = Err ("invoke db create user: " +:+ username +:+ " failed: " +:+ e')
        | inr response =>
            StatusCode response = 200 ->
            (ReadAll response = inl e \/
             exists body, ReadAll response = inr body /\ Unmarshal w body = inl e) ->
            fst (run (NewUser w req) c)
            = Err ("invoke db create user:" +:+ username +:+ " failed: " +:+ e)
        end) /\
  (forall url contentType b,
      In (EvPost url contentType b) (trace (snd (run (DeleteUser w dreq) c))) ->
      match Post w (httpClient c) url contentType b with
      | inl e' => fst (run (DeleteUser w dreq) c) = Err e'
      | inr response =>
          StatusCode response = 200 ->
          (ReadAll response = inl e \/
           exists body, ReadAll response = inr body /\ Unmarshal w body = inl e) ->
          fst (run (DeleteUser w dreq) c) = Err ("delete user failed: " +:+ e)
      end).
Proof.
  split; intros url ct b.
  - rewrite NewUser_run_view. unfold NewUser_view, early.
    destruct (snd (GenerateUsername w));
      [cbn [snd trace]; intros [E | [E | []]]; discriminate E|].
    destruct (len (Getenv w mysqlToken) =? 0);
      [cbn [snd trace]; intros [E | [E | []]]; discriminate E|].
    destruct (NewUser_Commands req) as [|stmt [|s2 rest]];
      try (cbn [snd trace]; intros [E | [E | []]]; discriminate E).
    destruct (Unmarshal w stmt) as [e0|[g|]];
      try (cbn [snd trace]; intros [E | [E | []]]; discriminate E).
    destruct (Marshal w _) as [e0|b'];
      [cbn [snd trace]; intros [E | [E | []]]; discriminate E|].
    cbn [fst snd trace]. intros [E | [E | [E | [E | []]]]]; try discriminate E.
    injection E as <- <- <-.
    destruct (NewUser_username_shape w (Some g)) as (suffix & Hsuf & Hname).
    exists suffix, (NewUser_username w (Some g)).
    split; [exact Hsuf|]. split; [exact Hname|].
    unfold NewUser_answer.
    destruct (Post w _ _ _ _) as [e'|response]; [reflexivity|].
    intros Hcode Hfail. apply Z.eqb_eq in Hcode. rewrite Hcode.
    destruct Hfail as [Hread | (body & Hread & Hdec)]; rewrite Hread;
      [reflexivity|]. rewrite Hdec. reflexivity.
  - rewrite DeleteUser_run_view. unfold DeleteUser_view, early.
    destruct (DeleteUser_Commands dreq) as [|stmt rest];
      [cbn [snd trace]; intros [E | [E | []]]; discriminate E|].
    destruct (Unmarshal w stmt) as [e0|[g|]];
      try (cbn [snd trace]; intros [E | [E | []]]; discriminate E).
    destruct (Marshal w _) as [e0|b'];
      [cbn [snd trace]; intros [E | [E | []]]; discriminate E|].
    cbn [fst snd trace]. intros [E | [E | [E | []]]]; try discriminate E.
    injection E as <- <- <-.
    unfold DeleteUser_answer.
    destruct (Post w _ _ _ _) as [e'|response]; [reflexivity|].
    intros Hcode Hfail. apply Z.eqb_eq in Hcode. rewrite Hcode.
    destruct Hfail as [Hread | (body & Hread & Hdec)]; rewrite Hread;
      [reflexivity|]. rewrite Hdec. reflexivity.
Qed.

Lemma exchange_errors_witness :
  (exists suffix username,
      (suffix = "r" \/ suffix = "rw") /\
      username = "V_AB3DE5GH7JK" +:+ "_" +:+ suffix /\
      fst (run (NewUser (Faulty.world "tok" (inl "dial tcp: connection refused")
                           None Faulty.decode30)
                  {| NewUser_Commands := [Sample.stmt_no_priv]; NewUser_Password := "pw" |})
             Sample.c0)
      = Err ("invoke db create user: " +:+ username +:+ " failed: "
             +:+ "dial tcp: connection refused")) /\
  fst (run (DeleteUser (Faulty.world "tok" (inl "dial tcp: connection refused")
                          None Faulty.decode30)
              {| DeleteUser_Username := "BOB_r";
                 DeleteUser_Commands := [Sample.stmt_no_priv] |})
         Sample.c0)
  = Err "dial tcp: connection refused".
Proof.
  destruct (exchange_errors
              (Faulty.world "tok" (inl "dial tcp: connection refused") None Faulty.decode30)
              Sample.c0
              {| NewUser_Commands := [Sample.stmt_no_priv]; NewUser_Password := "pw" |}
              {| DeleteUser_Username := "BOB_r";
                 DeleteUser_Commands := [Sample.stmt_no_priv] |}
              "") as [HN HD].
  split.
  - apply (HN "http://db.example/api" "application/json"
              "AddUser token=tok username=V_AB3DE5GH7JK_r").
    vm_compute. right. right. left. reflexivity.
  - apply (HD "http://db.example/api" "application/json"
              "VaultDelUser token=tok username=BOB_r").
    vm_compute. right. left. reflexivity.
Defined.

(** X13. An error decoding the statement comes back as it is, with no
    heading and no username, and ends the call before any exchange:
    from [NewUser] once the generator, the token and the statement count have
    passed, from [DeleteUser] whenever it is the first statement's. *)
Theorem statement_errors_surface_verbatim (w : World) (c : producer)
    (req : NewUserRequest) (dreq : DeleteUserRequest) (stmt : string) (e : error) :
  Unmarshal w stmt = inl e ->
  (snd (GenerateUsername w) = None ->
   Getenv w mysqlToken <> "" ->
   NewUser_Commands req = [stmt] ->
   run (NewUser w req) c = (Err e, early c)) /\
  (forall rest,
      DeleteUser_Commands dreq = stmt :: rest ->
      run (DeleteUser w dreq) c = (Err e, early c)).
Proof.
  intros Hdec. split.
  - intros Hgen Htok Hcmd. rewrite NewUser_run_view. unfold NewUser_view.
    rewrite Hgen, Hcmd, Hdec.
    destruct (len (Getenv w mysqlToken) =? 0) eqn:E; [|reflexivity].
    apply len_zero in E. contradiction.
  - intros rest Hcmd. rewrite DeleteUser_run_view. unfold DeleteUser_view.
    rewrite Hcmd, Hdec. reflexivity.
Qed.

Lemma statement_errors_surface_verbatim_witness :
  run (NewUser (Sample.world "tok" (Sample.http 200 Sample.body_ok))
         {| NewUser_Commands := ["not json"]; NewUser_Password := "pw" |})
      Sample.c0
  = (Err "invalid character", early Sample.c0) /\
  run (DeleteUser (Sample.world "tok" (Sample.http 200 Sample.body_ok))
         {| DeleteUser_Username := "BOB_r"; DeleteUser_Commands := ["not json"] |})
      Sample.c0
  = (Err "invalid character", early Sample.c0).
Proof.
  destruct (statement_errors_surface_verbatim
              (Sample.world "tok" (Sample.http 200 Sample.body_ok)) Sample.c0
              {| NewUser_Commands := ["not json"]; NewUser_Password := "pw" |}
              {| DeleteUser_Username := "BOB_r"; DeleteUser_Commands := ["not json"] |}
              "not json" "invalid character" eq_refl) as [HN HD].
  split.
  - apply HN; [reflexivity | discriminate | reflexivity].
  - apply (HD []). reflexivity.
Defined.

(** ** More of what [Initialize] does *)

(** X14. When the decoder cannot be built, or decoding the configuration
    fails, [Initialize] returns that error and the connection URL is not
    taken from the environment, nor is the producer marked initialized: both
    are left as the decoder left them (untouched when it could not be built).
    The HTTP client is rebuilt all the same. *)
Theorem Initialize_failure (w : World) (c : producer) (req : InitializeRequest)
    (e : error) :
  (NewDecoder w = Some e ->
   run (Initialize w req) c
   = (Err e,
      {| conn := set_httpClient (pool_of c) (set_RawConfig (Config req) c);
         trace := [EvLock; EvUnlock] |})) /\
  (NewDecoder w = None ->
   snd (Decode w (Config req) (set_RawConfig (Config req) c)) = Some e ->
   exists st,
     run (Initialize w req) c = (Err e, st) /\
     ConnectionURL (conn st)
     = ConnectionURL (fst (Decode w (Config req) (set_RawConfig (Config req) c))) /\
     Initialized (conn st)
     = Initialized (fst (Decode w (Config req) (set_RawConfig (Config req) c))) /\
     httpClient (conn st)
     = pool_of (fst (Decode w (Config req) (set_RawConfig (Config req) c)))).
Proof.
  split.
  - intros Hnew. rewrite Initialize_run. cbv zeta. rewrite Hnew. reflexivity.
  - intros Hnew Hdec. rewrite Initialize_run. cbv zeta. rewrite Hnew, Hdec.
    eexists. split; [reflexivity|]. cbn. auto.
Qed.

Lemma Initialize_failure_witness :
  run (Initialize (Faulty.world "tok" (Sample.http 200 Sample.body_ok)
                     (Some "result must be a pointer") Faulty.decode30)
         {| Config := Some ∅; VerifyConnection := false |})
      new
  = (Err "result must be a pointer",
     {| conn := set_httpClient (pool_of new) (set_RawConfig (Some ∅) new);
        trace := [EvLock; EvUnlock] |}) /\
  (exists st,
      run (Initialize (Faulty.world "tok" (Sample.http 200 Sample.body_ok)
                         None Faulty.decode_fails)
             {| Config := Some ∅; VerifyConnection := false |})
          new
      = (Err "cannot parse 'timeout' as int", st) /\
      ConnectionURL (conn st) = "" /\
      Initialized (conn st) = false /\
      httpClient (conn st) = pool_of (set_RawConfig (Some ∅) new)).
Proof.
  split.
  - apply (Initialize_failure
             (Faulty.world "tok" (Sample.http 200 Sample.body_ok)
                (Some "result must be a pointer") Faulty.decode30)
             new {| Config := Some ∅; VerifyConnection := false |}
             "result must be a pointer").
    reflexivity.
  - apply (Initialize_failure
             (Faulty.world "tok" (Sample.http 200 Sample.body_ok)
                None Faulty.decode_fails)
             new {| Config := Some ∅; VerifyConnection := false |}
             "cannot parse 'timeout' as int"); reflexivity.
Defined.

(** X15. The HTTP client [Initialize] leaves is built from the durations
    the decoder wrote, each taken as a count of seconds: the request timeout
    and the dial timeout are both [Timeout * time.Second], the keep-alive and
    the idle timeout likewise, in int64 arithmetic; for a count between 0 and
    9223372036 the product is exact, and the idle-connection cap is copied. *)
Theorem http_client_durations (w : World) (c : producer) (req : InitializeRequest)
    (resp : InitializeResponse) (st : state) :
  run (Initialize w req) c = (Ret resp, st) ->
  exists c',
    c' = fst (Decode w (Config req) (set_RawConfig (Config req) c)) /\
    client_Timeout (httpClient (conn st)) = wrap64 (Timeout c' * 1000000000) /\
    dial_Timeout (httpClient (conn st)) = client_Timeout (httpClient (conn st)) /\
    dial_KeepAlive (httpClient (conn st)) = wrap64 (KeepAlive c' * 1000000000) /\
    transport_IdleConnTimeout (httpClient (conn st))
    = wrap64 (IdleConnTimeout c' * 1000000000) /\
    transport_MaxIdleConns (httpClient (conn st)) = MaxIdleConns c' /\
    (0 <= Timeout c' <= 9223372036 ->
     client_Timeout (httpClient (conn st)) = Timeout c' * 1000000000) /\
    - 2 ^ 63 <= client_Timeout (httpClient (conn st)) < 2 ^ 63.
Proof.
  rewrite Initialize_run. cbv zeta.
  destruct (NewDecoder w); [discriminate|].
  destruct (snd (Decode w _ _)); [discriminate|].
  intros H. injection H as _ <-.
  eexists. split; [reflexivity|]. cbn [conn httpClient set_httpClient pool_of
    client_Timeout dial_Timeout dial_KeepAlive transport_IdleConnTimeout
    transport_MaxIdleConns set_Initialized set_ConnectionURL Timeout KeepAlive
    IdleConnTimeout MaxIdleConns].
  unfold Second. repeat split; try reflexivity.
  - intros Hb. apply wrap64_exact. lia.
  - apply wrap64_range.
  - apply wrap64_range.
Qed.

Lemma http_client_durations_witness :
  exists c',
    c' = fst (Faulty.decode30 (Some ∅) (set_RawConfig (Some ∅) new)) /\
    client_Timeout
      (httpClient (conn (snd (run (Initialize
                                     (Faulty.world "tok" (Sample.http 200 Sample.body_ok)
                                        None Faulty.decode30)
                                     {| Config := Some ∅; VerifyConnection := false |})
                                  new))))
    = wrap64 (Timeout c' * 1000000000) /\
    dial_Timeout
      (httpClient (conn (snd (run (Initialize
                                     (Faulty.world "tok" (Sample.http 200 Sample.body_ok)
                                        None Faulty.decode30)
                                     {| Config := Some ∅; VerifyConnection := false |})
                                  new))))
    = client_Timeout
        (httpClient (conn (snd (run (Initialize
                                       (Faulty.world "tok" (Sample.http 200 Sample.body_ok)
                                          None Faulty.decode30)
                                       {| Config := Some ∅; VerifyConnection := false |})
                                    new)))).
Proof.
  destruct (http_client_durations
              (Faulty.world "tok" (Sample.http 200 Sample.body_ok) None Faulty.decode30)
              new {| Config := Some ∅; VerifyConnection := false |}
              _ _ eq_refl) as (c' & Hc & H1 & H2 & _).
  exists c'. split; [exact Hc|]. split; [exact H1 | exact H2].
Defined.

Example thirty_seconds :
  client_Timeout
    (httpClient (conn (snd (run (Initialize
                                   (Faulty.world "tok" (Sample.http 200 Sample.body_ok)
                                      None Faulty.decode30)
                                   {| Config := Some ∅; VerifyConnection := false |})
                                new))))
  = 30000000000.
Proof. vm_compute. reflexivity. Qed.

(** X16. After a successful [Initialize], every POST of a later [NewUser] or
    [DeleteUser] on that producer goes to the URL of [vault_mysql_db], as
    [application/json], whatever URL the configuration named. *)
Theorem Initialize_then_calls_post_to_env_url (w : World) (c : producer)
    (ireq : InitializeRequest) (resp : InitializeResponse) (st : state)
    (w' : World) (req : NewUserRequest) (dreq : DeleteUserRequest)
    (url contentType b : string) :
  run (Initialize w ireq) c = (Ret resp, st) ->
  In (EvPost url contentType b) (trace (snd (run (NewUser w' req) (conn st)))) \/
  In (EvPost url contentType b) (trace (snd (run (DeleteUser w' dreq) (conn st)))) ->
  url = Getenv w vaultMysqlDb /\ contentType = "application/json".
Proof.
  intros Hinit Hin.
  assert (Hurl : ConnectionURL (conn st) = Getenv w vaultMysqlDb).
  { rewrite Initialize_run in Hinit. cbv zeta in Hinit.
    destruct (NewDecoder w); [discriminate Hinit|].
    destruct (snd (Decode w _ _)); [discriminate Hinit|].
    injection Hinit as _ <-. reflexivity. }
  rewrite <- Hurl. clear Hurl Hinit. generalize dependent (conn st). intros c1 Hin.
  destruct Hin as [Hin | Hin].
  - rewrite NewUser_run_view in Hin. unfold NewUser_view, early in Hin.
    destruct (snd (GenerateUsername w'));
      [cbn [snd trace] in Hin; destruct Hin as [E | [E | []]]; discriminate E|].
    destruct (len (Getenv w' mysqlToken) =? 0);
      [cbn [snd trace] in Hin; destruct Hin as [E | [E | []]]; discriminate E|].
    destruct (NewUser_Commands req) as [|stmt [|s2 rest]];
      try (cbn [snd trace] in Hin; destruct Hin as [E | [E | []]]; discriminate E).
    destruct (Unmarshal w' stmt) as [e0|[g|]];
      try (cbn [snd trace] in Hin; destruct Hin as [E | [E | []]]; discriminate E).
    destruct (Marshal w' _) as [e0|b'];
      [cbn [snd trace] in Hin; destruct Hin as [E | [E | []]]; discriminate E|].
    cbn [snd trace] in Hin.
    destruct Hin as [E | [E | [E | [E | []]]]]; try discriminate E.
    injection E as <- <- <-. split; reflexivity.
  - rewrite DeleteUser_run_view in Hin. unfold DeleteUser_view, early in Hin.
    destruct (DeleteUser_Commands dreq) as [|stmt rest];
      [cbn [snd trace] in Hin; destruct Hin as [E | [E | []]]; discriminate E|].
    destruct (Unmarshal w' stmt) as [e0|[g|]];
      try (cbn [snd trace] in Hin; destruct Hin as [E | [E | []]]; discriminate E).
    destruct (Marshal w' _) as [e0|b'];
      [cbn [snd trace] in Hin; destruct Hin as [E | [E | []]]; discriminate E|].
    cbn [snd trace] in Hin.
    destruct Hin as [E | [E | [E | []]]]; try discriminate E.
    injection E as <- <- <-. split; reflexivity.
Qed.

Lemma Initialize_then_calls_post_to_env_url_witness :
  "http://db.example/api" = "http://db.example/api" /\
  "application/json" = "application/json".
Proof.
  apply (Initialize_then_calls_post_to_env_url
           (Faulty.world "tok" (Sample.http 200 Sample.body_ok) None Faulty.decode30)
           new
           {| Config := Some {[ "connection_url" := VString "http://other/" ]};
              VerifyConnection := true |}
           _ _
           (Sample.world "tok" (Sample.http 200 Sample.body_ok))
           {| NewUser_Commands := [Sample.stmt_no_priv]; NewUser_Password := "pw" |}
           {| DeleteUser_Username := "BOB_r"; DeleteUser_Commands := [] |}
           "http://db.example/api" "application/json"
           "AddUser token=tok username=V_AB3DE5GH7JK_r" eq_refl).
  left. vm_compute. right. right. left. reflexivity.
Defined.

(** X17. The two calls read nothing of the producer but its connection URL
    and its HTTP client: on two producers that agree on these, a call has the
    same outcome and the same history.  Whether the producer was ever
    initialized is not looked at. *)
Theorem calls_read_only_url_and_client (w : World) (c c' : producer)
    (req : NewUserRequest) (dreq : DeleteUserRequest) :
  ConnectionURL c = ConnectionURL c' ->
  httpClient c = httpClient c' ->
  (fst (run (NewUser w req) c) = fst (run (NewUser w req) c') /\
   trace (snd (run (NewUser w req) c)) = trace (snd (run (NewUser w req) c'))) /\
  (fst (run (DeleteUser w dreq) c) = fst (run (DeleteUser w dreq) c') /\
   trace (snd (run (DeleteUser w dreq) c)) = trace (snd (run (DeleteUser w dreq) c'))).
Proof.
  intros Hurl Hclient.
  rewrite !NewUser_run_view, !DeleteUser_run_view.
  unfold NewUser_view, DeleteUser_view, early. rewrite Hurl, Hclient. split.
  - destruct (snd (GenerateUsername w)); [split; reflexivity|].
    destruct (len (Getenv w mysqlToken) =? 0); [split; reflexivity|].
    destruct (NewUser_Commands req) as [|stmt [|s2 rest]]; try (split; reflexivity).
    destruct (Unmarshal w stmt) as [e|[g|]]; try (split; reflexivity).
    destruct (Marshal w _); split; reflexivity.
  - destruct (DeleteUser_Commands dreq) as [|stmt rest]; [split; reflexivity|].
    destruct (Unmarshal w stmt) as [e|[g|]]; try (split; reflexivity).
    destruct (Marshal w _); split; reflexivity.
Qed.

Lemma calls_read_only_url_and_client_witness :
  (fst (run (NewUser (Sample.world "tok" (Sample.http 200 Sample.body_ok))
               {| NewUser_Commands := [Sample.stmt_no_priv]; NewUser_Password := "pw" |})
          new)
   = fst (run (NewUser (Sample.world "tok" (Sample.http 200 Sample.body_ok))
                 {| NewUser_Commands := [Sample.stmt_no_priv]; NewUser_Password := "pw" |})
            (set_Initialized true new)) /\
   trace (snd (run (NewUser (Sample.world "tok" (Sample.http 200 Sample.body_ok))
                      {| NewUser_Commands := [Sample.stmt_no_priv];
                         NewUser_Password := "pw" |})
                 new))
   = trace (snd (run (NewUser (Sample.world "tok" (Sample.http 200 Sample.body_ok))
                        {| NewUser_Commands := [Sample.stmt_no_priv];
                           NewUser_Password := "pw" |})
                   (set_Initialized true new)))) /\
  (fst (run (DeleteUser (Sample.world "tok" (Sample.http 200 Sample.body_ok))
               {| DeleteUser_Username := "BOB_r";
                  DeleteUser_Commands := [Sample.stmt_no_priv] |})
          new)
   = fst (run (DeleteUser (Sample.world "tok" (Sample.http 200 Sample.body_ok))
                 {| DeleteUser_Username := "BOB_r";
                    DeleteUser_Commands := [Sample.stmt_no_priv] |})
            (set_Initialized true new)) /\
   trace (snd (run (DeleteUser (Sample.world "tok" (Sample.http 200 Sample.body_ok))
                      {| DeleteUser_Username := "BOB_r";
                         DeleteUser_Commands := [Sample.stmt_no_priv] |})
                 new))
   = trace (snd (run (DeleteUser (Sample.world "tok" (Sample.http 200 Sample.body_ok))
                        {| DeleteUser_Username := "BOB_r";
                           DeleteUser_Commands := [Sample.stmt_no_priv] |})
                   (set_Initialized true new)))).
Proof.
  apply (calls_read_only_url_and_client
           (Sample.world "tok" (Sample.http 200 Sample.body_ok))
           new (set_Initialized true new)); reflexivity.
Defined.

(** A producer that was never initialized still posts, to the empty URL. *)
Example uninitialized_producer_posts :
  network_calls
    (trace (snd (run (NewUser (Sample.world "tok" (Sample.http 200 Sample.body_ok))
                        {| NewUser_Commands := [Sample.stmt_no_priv];
                           NewUser_Password := "pw" |})
                   new)))
  = [EvPost "" "application/json" "AddUser token=tok username=V_AB3DE5GH7JK_r"].
Proof. vm_compute. reflexivity. Qed.

(** ** [nameTrunc] and the shape of a username *)

Lemma substring_0_prefix (s : string) (n : nat) :
  String.prefix (substring 0 n s) s = true.
Proof.
  revert n. induction s as [|ch s IH]; intros [|n]; cbn [substring String.prefix];
    try reflexivity.
  destruct (ascii_dec ch ch); [apply IH | contradiction].
Qed.

Lemma substring_0_length (s : string) (n : nat) :
  String.length (substring 0 n s) = Nat.min n (String.length s).
Proof.
  revert n. induction s as [|ch s IH]; intros [|n]; cbn [substring String.length Nat.min];
    try reflexivity.
  now rewrite IH.
Qed.

Lemma prefix_refl (s : string) : String.prefix s s = true.
Proof.
  induction s as [|ch s IH]; cbn [String.prefix]; [reflexivity|].
  destruct (ascii_dec ch ch); [exact IH | contradiction].
Qed.

(** X18. [nameTrunc str l] with a positive [l] is the first [min(len(str),
    l)] bytes of [str]; with [l = 0] it is [str] itself, not the empty
    string; with a negative [l] it is empty.  Cutting twice is cutting
    once. *)
Theorem nameTrunc_cuts_to_prefix (str : string) (l : Z) :
  (0 < l ->
   String.prefix (nameTrunc str l) str = true /\
   len (nameTrunc str l) = Z.min (len str) l) /\
  (l = 0 -> nameTrunc str l = str) /\
  (l < 0 -> nameTrunc str l = "") /\
  nameTrunc (nameTrunc str l) l = nameTrunc str l.
Proof.
  assert (Hpos : 0 < l ->
                 String.prefix (nameTrunc str l) str = true /\
                 len (nameTrunc str l) = Z.min (len str) l).
  { intros Hl. unfold nameTrunc.
    destruct (0 <? l) eqn:E; [|apply Z.ltb_ge in E; lia].
    destruct (len str <? l) eqn:E2.
    - apply Z.ltb_lt in E2. split; [apply prefix_refl | lia].
    - apply Z.ltb_ge in E2. split; [apply substring_0_prefix|].
      unfold len in *. rewrite substring_0_length. lia. }
  split; [exact Hpos|]. split; [|split].
  - intros ->. reflexivity.
  - intros Hl. unfold nameTrunc.
    destruct (0 <? l) eqn:E; [apply Z.ltb_lt in E; lia|].
    destruct (l =? 0) eqn:E2; [apply Z.eqb_eq in E2; lia | reflexivity].
  - destruct (Z.lt_trichotomy l 0) as [Hl | [-> | Hl]].
    + unfold nameTrunc.
      destruct (0 <? l) eqn:E; [apply Z.ltb_lt in E; lia|].
      destruct (l =? 0) eqn:E2; [apply Z.eqb_eq in E2; lia | reflexivity].
    + reflexivity.
    + destruct (Hpos Hl) as [_ Hlen].
      unfold nameTrunc at 1.
      destruct (0 <? l) eqn:E; [|apply Z.ltb_ge in E; lia].
      destruct (len (nameTrunc str l) <? l) eqn:E2; [reflexivity|].
      apply Z.ltb_ge in E2.
      assert (Hn : Z.to_nat l = String.length (nameTrunc str l)) by (unfold len in *; lia).
      rewrite Hn. apply substring_all.
Qed.

Lemma upper_byte_not_lower (ch : ascii) : is_lower (upper_byte ch) = false.
Proof.
  unfold upper_byte, is_lower.
  destruct ((97 <=? byte_of ch) && (byte_of ch <=? 122)) eqn:E; [|exact E].
  apply andb_true_iff in E. destruct E as [E1 E2].
  apply Z.leb_le in E1. apply Z.leb_le in E2. unfold byte_of in *.
  rewrite nat_ascii_embedding by lia.
  apply andb_false_iff. left. apply Z.leb_gt. lia.
Qed.

Lemma upper_ascii_no_lower (s : string) :
  forallb (fun ch => negb (is_lower ch)) (list_ascii_of_string (upper_ascii s)) = true.
Proof.
  induction s as [|ch s IH]; [reflexivity|].
  cbn [upper_ascii list_ascii_of_string forallb].
  rewrite upper_byte_not_lower, IH. reflexivity.
Qed.

(** X19. The username a successful [NewUser] returns, when the name cut is
    ASCII: an upper-cased part with no byte in ['a'..'z'], an underscore, and
    the lower-case suffix [r] or [rw]; in all at most 16 bytes, three more
    than [maxKeyLength]. *)
Theorem username_upper_and_bounded (w : World) (c : producer)
    (req : NewUserRequest) (resp : NewUserResponse) (st : state) :
  isASCII (nameTrunc (fst (GenerateUsername w)) maxKeyLength) = true ->
  run (NewUser w req) c = (Ret resp, st) ->
  exists pre suffix,
    Username resp = pre +:+ "_" +:+ suffix /\
    (suffix = "r" \/ suffix = "rw") /\
    forallb (fun ch => negb (is_lower ch)) (list_ascii_of_string pre) = true /\
    len (Username resp) = len pre + 1 + len suffix /\
    len (Username resp) <= 16.
Proof.
  intros Hascii Hrun.
  destruct (NewUser_returns w req c resp st Hrun)
    as (stmt & g & b & _ & _ & _ & Hname & _).
  destruct (NewUser_username_shape w (Some g)) as (suffix & Hsuf & Hshape).
  assert (Hcut : len (nameTrunc (fst (GenerateUsername w)) maxKeyLength) <= 13)
    by exact (nameTrunc_length (fst (GenerateUsername w)) maxKeyLength eq_refl).
  exists (ToUpper w (nameTrunc (fst (GenerateUsername w)) maxKeyLength)), suffix.
  split; [congruence|]. split; [exact Hsuf|].
  assert (Hlen : len (Username resp)
                 = len (ToUpper w (nameTrunc (fst (GenerateUsername w)) maxKeyLength))
                   + 1 + len suffix).
  { rewrite Hname, Hshape. unfold len. rewrite !length_append. cbn [String.length]. lia. }
  split; [|split; [exact Hlen|]].
  - unfold ToUpper. rewrite Hascii. apply upper_ascii_no_lower.
  - rewrite Hlen. unfold len in *. rewrite (ToUpper_length w _ Hascii).
    destruct Hsuf as [-> | ->]; cbn [String.length]; lia.
Qed.

Lemma username_upper_and_bounded_witness :
  exists pre suffix,
    "V_AB3DE5GH7JK_rw" = pre +:+ "_" +:+ suffix /\
    (suffix = "r" \/ suffix = "rw") /\
    forallb (fun ch => negb (is_lower ch)) (list_ascii_of_string pre) = true /\
    len "V_AB3DE5GH7JK_rw" = len pre + 1 + len suffix /\
    len "V_AB3DE5GH7JK_rw" <= 16.
Proof.
  exact (username_upper_and_bounded
           (Sample.world "tok" (Sample.http 200 Sample.body_ok)) Sample.c0
           {| NewUser_Commands := [Sample.stmt_priv_1]; NewUser_Password := "pw" |}
           {| Username := "V_AB3DE5GH7JK_rw" |}
           {| conn := Sample.c0;
              trace := [EvLock;
                        EvLog "request db create user body:"
                          "AddUser token=tok username=V_AB3DE5GH7JK_rw";
                        EvPost "http://db.example/api" "application/json"
                          "AddUser token=tok username=V_AB3DE5GH7JK_rw";
                        EvUnlock] |}
           eq_refl eq_refl).
Defined.

(** X20. The name [NewUser] creates is the name [DeleteUser] deletes: when
    the username a successful [NewUser] returned is handed to [DeleteUser],
    the [username] of the object [DeleteUser] posts is the [username] of the
    object [NewUser] posted, byte for byte. *)
Theorem created_name_is_deleted_name (w w' : World) (c : producer)
    (req : NewUserRequest) (resp : NewUserResponse) (st : state)
    (statements : list string) (url contentType b : string) :
  run (NewUser w req) c = (Ret resp, st) ->
  In (EvPost url contentType b)
     (trace (snd (run (DeleteUser w' {| DeleteUser_Username := Username resp;
                                        DeleteUser_Commands := statements |}) c))) ->
  exists created deleted b0,
    In (EvPost url contentType b0) (trace st) /\
    Marshal w (Some created) = inr b0 /\
    Marshal w' (Some deleted) = inr b /\
    created !! "username" = Some (VString (Username resp)) /\
    deleted !! "username" = Some (VString (Username resp)).
Proof.
  intros Hnew Hin.
  destruct (NewUser_returns w req c resp st Hnew)
    as (stmt & g & b0 & _ & _ & Hmar & Hname & ->).
  rewrite DeleteUser_run_view in Hin. unfold DeleteUser_view, early in Hin.
  cbn [DeleteUser_Commands] in Hin.
  destruct statements as [|s1 rest];
    [cbn [snd trace] in Hin; destruct Hin as [E | [E | []]]; discriminate E|].
  destruct (Unmarshal w' s1) as [e0|[g'|]];
    try (cbn [snd trace] in Hin; destruct Hin as [E | [E | []]]; discriminate E).
  destruct (Marshal w' _) as [e0|b'] eqn:Hmar';
    [cbn [snd trace] in Hin; destruct Hin as [E | [E | []]]; discriminate E|].
  cbn [snd trace] in Hin.
  destruct Hin as [E | [E | [E | []]]]; try discriminate E.
  injection E as <- <- <-.
  exists (NewUser_body w req g),
    (DeleteUser_body w' {| DeleteUser_Username := Username resp;
                           DeleteUser_Commands := s1 :: rest |} g'), b0.
  split; [cbn [trace]; right; right; left; reflexivity|].
  split; [exact Hmar|]. split; [exact Hmar'|]. split.
  - rewrite Hname. unfold NewUser_body.
    do 3 (rewrite lookup_insert_ne by discriminate). apply lookup_insert_eq.
  - unfold DeleteUser_body. cbn [DeleteUser_Username]. apply lookup_insert_eq.
Qed.

Lemma created_name_is_deleted_name_witness :
  exists created deleted b0,
    In (EvPost "http://db.example/api" "application/json" b0)
       [EvLock;
        EvLog "request db create user body:" "AddUser token=tok username=V_AB3DE5GH7JK_r";
        EvPost "http://db.example/api" "application/json"
          "AddUser token=tok username=V_AB3DE5GH7JK_r";
        EvUnlock] /\
    Sample.marshal (Some created) = inr b0 /\
    Sample.marshal (Some deleted) = inr "VaultDelUser token=tok username=V_AB3DE5GH7JK_r" /\
    created !! "username" = Some (VString "V_AB3DE5GH7JK_r") /\
    deleted !! "username" = Some (VString "V_AB3DE5GH7JK_r").
Proof.
  apply (created_name_is_deleted_name
           (Sample.world "tok" (Sample.http 200 Sample.body_ok))
           (Sample.world "tok" (Sample.http 200 Sample.body_ok)) Sample.c0
           {| NewUser_Commands := [Sample.stmt_no_priv]; NewUser_Password := "pw" |}
           {| Username := "V_AB3DE5GH7JK_r" |}
           {| conn := Sample.c0;
              trace := [EvLock;
                        EvLog "request db create user body:"
                          "AddUser token=tok username=V_AB3DE5GH7JK_r";
                        EvPost "http://db.example/api" "application/json"
                          "AddUser token=tok username=V_AB3DE5GH7JK_r";
                        EvUnlock] |}
           [Sample.stmt_no_priv]
           "http://db.example/api" "application/json"
           "VaultDelUser token=tok username=V_AB3DE5GH7JK_r" eq_refl).
  vm_compute. right. left. reflexivity.
Defined.
